(** * fetch_and_process_financial_data.py: a shallow embedding

    The script downloads five monthly series, merges them into one
    date-indexed frame, runs ADF tests, picks a distributed-lag order by
    information criteria and fits an OLS model.  This development embeds the
    parts of the script that are written in the script itself: the control
    flow of [validate_dates], [build_dataframe], [adf_test],
    [select_lag_length] and the column transforms and FPE arithmetic of
    [main].  Calls into pandas, statsmodels and the data providers are
    parameters of the sections below.

    Numbers are IEEE binary64 values (Rocq's primitive floats), a missing
    observation is NaN as in pandas, Python exceptions and [sys.exit] are
    explicit outcomes. *)

From Stdlib Require Import ZArith List Ascii Floats QArith Lia Bool Sorted.
From stdpp Require Import gmap strings list fin_maps.

Local Open Scope Z_scope.
Local Open Scope string_scope.

(** ** Outcomes of a Python call *)

Inductive exn : Type :=
  | ValueError
  | KeyError
  | ZeroDivisionError
  | AttributeError
  | OtherError (what : string).

Inductive outcome (A : Type) : Type :=
  | Return (a : A)          (* the call returns [a] *)
  | Raise (e : exn)         (* an exception propagates to the caller *)
  | Exit (code : Z).        (* [sys.exit(code)] *)

Arguments Return {A} a.
Arguments Raise {A} e.
Arguments Exit {A} code.

#[global] Instance outcome_ret : MRet outcome := fun A a => Return a.

#[global] Instance outcome_bind : MBind outcome := fun A B k m =>
  match m with
  | Return a => k a
  | Raise e => Raise e
  | Exit c => Exit c
  end.

(** [d[key]] on a Python dict. *)
Definition getitem {V : Type} (d : gmap string V) (key : string) : outcome V :=
  match d !! key with
  | Some v => Return v
  | None => Raise KeyError
  end.

(** A [for] loop whose body may raise. *)
Fixpoint for_each {S X : Type} (body : S -> X -> outcome S) (xs : list X) (s : S)
  : outcome S :=
  match xs with
  | [] => Return s
  | x :: xs' => s' ← body s x; for_each body xs' s'
  end.

(** [range(a, b)] on Python integers. *)
Definition range (a b : Z) : list Z :=
  map (fun i : nat => a + Z.of_nat i) (seq 0 (Z.to_nat (b - a))).

(** ** Comparisons of binary64 values *)

Module F64.

Definition lt (x y : float) : bool := PrimFloat.ltb x y.
Definition equal (x y : float) : bool := PrimFloat.eqb x y.
Definition isna (x : float) : bool := PrimFloat.is_nan x.

End F64.

(** ** Lag selection ([select_lag_length], lines 115-130) *)

Module LagSelection.

(** What the loop reads from a fitted statsmodels result: [mdl.aic],
    [mdl.bic], and [mdl.fpe] when [hasattr(mdl, "fpe")] holds ([None] is a
    result object without that attribute). *)
Record OLSResults : Type := { aic : float; bic : float; fpe : option float }.

(** The two dictionaries [best] and [best_lag]. *)
Definition lag_state : Type := gmap string float * gmap string (option Z).

Definition best0 : gmap string float :=
  {[ "aic" := infinity; "bic" := infinity; "fpe" := infinity ]}.

Definition best_lag0 : gmap string (option Z) :=
  {[ "aic" := None; "bic" := None; "fpe" := None ]}.

(** [if value < best[key]: best[key], best_lag[key] = value, lag] *)
Definition update (key : string) (value : float) (lag : Z) (st : lag_state)
  : outcome lag_state :=
  cur ← getitem st.1 key;
  if F64.lt value cur
  then Return (<[key := value]> st.1, <[key := Some lag]> st.2)
  else Return st.

(** The value a fitted model offers for a criterion. *)
Definition crit (key : string) (mdl : OLSResults) : option float :=
  if String.eqb key "aic" then Some (aic mdl)
  else if String.eqb key "bic" then Some (bic mdl)
  else if String.eqb key "fpe" then fpe mdl
  else None.

Section Select.

Context {Endog Exog : Type}.

(** Lines 120-122: stack the lagged regressors, drop incomplete rows, align
    the endogenous series and fit [sm.OLS(ylag, sm.add_constant(Xlag))]. *)
Variable fit_lagged : Endog -> Exog -> Z -> outcome OLSResults.

Variable endog : Endog.
Variable exog : Exog.

Definition body (st : lag_state) (lag : Z) : outcome lag_state :=
  mdl ← fit_lagged endog exog lag;
  st1 ← update "aic" (aic mdl) lag st;
  st2 ← update "bic" (bic mdl) lag st1;
  match fpe mdl with
  | Some v => update "fpe" v lag st2
  | None => Return st2
  end.

Definition select_lag_length (max_lag : Z) : outcome (gmap string (option Z)) :=
  st ← for_each body (range 1 (max_lag + 1)) (best0, best_lag0);
  Return st.2.

(** The criterion value of the model fitted at a lag, when there is one. *)
Definition criterion (key : string) (lag : Z) : option float :=
  match fit_lagged endog exog lag with
  | Return mdl => crit key mdl
  | _ => None
  end.

(** One accumulator of the loop, taken alone: the running minimum of a
    criterion and the lag that set it. *)
Definition pick (val : Z -> option float) (acc : float * option Z) (lag : Z)
  : float * option Z :=
  match val lag with
  | Some v => if F64.lt v acc.1 then (v, Some lag) else acc
  | None => acc
  end.

Definition view (key : string) (st : lag_state) : option (float * option Z) :=
  b ← st.1 !! key; l ← st.2 !! key; Some (b, l).

Definition tracks (st : lag_state) (a b f : float * option Z) : Prop :=
  view "aic" st = Some a /\ view "bic" st = Some b /\ view "fpe" st = Some f.

(** What the accumulator of a criterion satisfies after the lags [1..n]. *)
Record minimal_upto (val : Z -> option float) (n : Z) (acc : float * option Z)
  : Prop :=
  { none_inf : acc.2 = None -> acc.1 = infinity;
    some_at : forall L, acc.2 = Some L ->
      1 <= L <= n /\ val L = Some acc.1 /\ F64.lt acc.1 infinity = true;
    lower : forall L v, 1 <= L <= n -> val L = Some v -> F64.lt v acc.1 = false;
    first : forall L L' v', acc.2 = Some L -> 1 <= L' < L ->
      val L' = Some v' -> F64.equal v' acc.1 = false }.

End Select.

(** The default [max_lag=6] of the signature. *)
Definition default_max_lag : Z := 6.

(** The three criteria of the dictionaries. *)
Definition criteria : list string := ["aic"; "bic"; "fpe"].

(** Sample fits for running the loop.  The first has results without an
    [fpe] attribute, which is how statsmodels' OLS results come; its AIC
    ties at lags 2 and 3.  The second also offers an FPE.  The third fails
    at every lag. *)
Definition fit_plain (_ _ : unit) (lag : Z) : outcome OLSResults :=
  Return {| aic := if Z.eqb lag 1 then 3 else 1; bic := 2; fpe := None |}.

Definition fit_with_fpe (_ _ : unit) (lag : Z) : outcome OLSResults :=
  Return {| aic := if Z.eqb lag 1 then 3 else 1; bic := 2;
            fpe := Some (if Z.eqb lag 3 then 0.25 else 0.5)%float |}.

Definition fit_failing (_ _ : unit) (lag : Z) : outcome OLSResults :=
  Raise (OtherError "LinAlgError").

End LagSelection.

(** ** The pandas objects the script handles *)

Module Pandas.

(** A Series: its name and its (timestamp, value) rows in index order. *)
Record Series : Type := { name : string; rows : list (Z * float) }.

(** A DataFrame: the row index and the named columns, left to right; every
    column holds one value per index entry. *)
Record DataFrame : Type :=
  { index : list Z; columns : list (string * list float) }.

Definition stamps (s : Series) : list Z := map fst (rows s).
Definition values (s : Series) : list float := map snd (rows s).

(** [series.name = label] *)
Definition set_name (s : Series) (label : string) : Series :=
  {| name := label; rows := rows s |}.

(** [.squeeze()] on the one-column frame a FRED download resamples to: a
    frame of exactly one row collapses to the bare number in it, any other
    frame to the series of its column. *)
Inductive squeezed : Type :=
  | AsSeries (s : Series)
  | AsScalar (v : float).

Definition one_row (frame : Series) : bool := Nat.eqb (length (rows frame)) 1.

Definition squeeze (frame : Series) : squeezed :=
  match rows frame with
  | [(_, v)] => AsScalar v
  | _ => AsSeries frame
  end.

(** [x.name = label] on what [squeeze] gave: a series takes the name, a
    bare number has no such attribute. *)
Definition assign_name (x : squeezed) (label : string) : outcome Series :=
  match x with
  | AsSeries s => Return (set_name s label)
  | AsScalar _ => Raise AttributeError
  end.

(** [.dropna()]: every row whose value is NaN goes, wherever it stands. *)
Definition dropna (s : Series) : Series :=
  {| name := name s; rows := List.filter (fun r => negb (F64.isna r.2)) (rows s) |}.

(** [.shift(1)] on the values: one step down, NaN on top, the last value
    falls off. *)
Definition shift (vs : list float) : list float :=
  take (length vs) (nan :: vs).

(** [.ffill()]: a NaN takes the last value seen before it, if any. *)
Fixpoint ffill_from (last : float) (vs : list float) : list float :=
  match vs with
  | [] => []
  | v :: vs' =>
      let v' := if F64.isna v then last else v in v' :: ffill_from v' vs'
  end.

Definition ffill (vs : list float) : list float := ffill_from nan vs.

(** [.diff()]: [x - x.shift(1)]. *)
Definition diff (vs : list float) : list float :=
  zip_with (fun x y => x - y)%float vs (shift vs).

(** [.pct_change()]: [data / data.shift(1) - 1], where [data] is the column
    itself, or the column forward-filled when the installed pandas still
    pads by default ([pad = true], pandas 2.x; [pad = false], pandas 3). *)
Definition pct_change (pad : bool) (vs : list float) : list float :=
  let data := if pad then ffill vs else vs in
  zip_with (fun x y => x / y - 1)%float data (shift data).

Definition on_values (f : list float -> list float) (s : Series) : Series :=
  {| name := name s; rows := combine (stamps s) (f (values s)) |}.

(** The union of the indexes, ascending and without repetition. *)
Fixpoint insert_stamp (t : Z) (l : list Z) : list Z :=
  match l with
  | [] => [t]
  | u :: l' =>
      if Z.ltb t u then t :: l
      else if Z.eqb t u then l
      else u :: insert_stamp t l'
  end.

Definition union_index (ss : list Series) : list Z :=
  foldr insert_stamp [] (List.concat (map stamps ss)).

(** The value a series has at a timestamp, NaN where it has no row. *)
Definition value_at (s : Series) (t : Z) : float :=
  match find (fun r => Z.eqb r.1 t) (rows s) with
  | Some r => r.2
  | None => nan
  end.

Definition reindex (idx : list Z) (s : Series) : list float :=
  map (value_at s) idx.

(** [pd.concat(series_list, axis=1)]: one column per series, in the order of
    the list, each laid out on the union of the indexes (which are free of
    repetitions, as [resample] leaves them). *)
Definition pd_concat (ss : list Series) : DataFrame :=
  let idx := union_index ss in
  {| index := idx; columns := map (fun s => (name s, reindex idx s)) ss |}.

(** [df.columns = labels]: pandas refuses a list of another length. *)
Definition set_columns (df : DataFrame) (labels : list string) : outcome DataFrame :=
  if Nat.eqb (length labels) (length (columns df))
  then Return {| index := index df;
                 columns := combine labels (map snd (columns df)) |}
  else Raise ValueError.

Definition column_names (df : DataFrame) : list string := map fst (columns df).

Fixpoint lookup_column (label : string) (cols : list (string * list float))
  : option (list float) :=
  match cols with
  | [] => None
  | (c, vs) :: cols' => if String.eqb c label then Some vs else lookup_column label cols'
  end.

(** [df[label]] read: the values of that column. *)
Definition getcol (df : DataFrame) (label : string) : outcome (list float) :=
  match lookup_column label (columns df) with
  | Some vs => Return vs
  | None => Raise KeyError
  end.

Fixpoint assign_column (label : string) (vs : list float)
  (cols : list (string * list float)) : list (string * list float) :=
  match cols with
  | [] => [(label, vs)]
  | (c, old) :: cols' =>
      if String.eqb c label then (c, vs) :: cols'
      else (c, old) :: assign_column label vs cols'
  end.

(** [df[label] = vs]: overwrite the column of that name, or append a new
    one on the right. *)
Definition setcol (df : DataFrame) (label : string) (vs : list float) : DataFrame :=
  {| index := index df; columns := assign_column label vs (columns df) |}.

End Pandas.

(** ** Date validation ([validate_dates], lines 20-31) *)

Module Dates.

(** What [pd.to_datetime] hands back for one string: a point on the time
    line, or the not-a-time marker. *)
Inductive datetime : Type :=
  | Timestamp (ordinal : Z)
  | NaT.

(** [s >= e]: every comparison with [NaT] is false. *)
Definition ge (s e : datetime) : bool :=
  match s, e with
  | Timestamp a, Timestamp b => Z.leb b a
  | _, _ => false
  end.

(** [s < e], for stating what the check is meant to ensure. *)
Definition lt (s e : datetime) : bool :=
  match s, e with
  | Timestamp a, Timestamp b => Z.ltb a b
  | _, _ => false
  end.

Definition DATE_FMT : string := "%Y-%m-%d".

Section Validate.

(** [pd.to_datetime(arg, format=fmt)]; [Raise ValueError] when pandas
    rejects the string. *)
Variable to_datetime : string -> string -> outcome datetime.

Definition validate_dates (start end_ : string) : outcome (string * string) :=
  match (s ← to_datetime start DATE_FMT;
         e ← to_datetime end_ DATE_FMT;
         Return (s, e)) with
  | Raise ValueError => Exit 1            (* except ValueError: sys.exit(1) *)
  | Raise e => Raise e
  | Exit c => Exit c
  | Return (s, e) => if ge s e then Exit 1 else Return (start, end_)
  end.

End Validate.

(** A reference parser for [DATE_FMT], used to run [validate_dates] on
    concrete strings.  As pandas does, it maps the empty string and the
    spellings of a missing time to [NaT] without raising; it accepts the
    ten-character form [dddd-dd-dd] of a calendar day and raises
    [ValueError] on anything else. *)

Definition nat_strings : list string :=
  ["NaT"; "nat"; "NAT"; "nan"; "NaN"; "NAN"].

Definition digit (c : ascii) : option Z :=
  let n := Z.of_nat (nat_of_ascii c) in
  if Z.leb 48 n && Z.leb n 57 then Some (n - 48) else None.

Fixpoint number (acc : Z) (cs : list ascii) : option Z :=
  match cs with
  | [] => Some acc
  | c :: cs' => match digit c with
                | Some d => number (10 * acc + d) cs'
                | None => None
                end
  end.

Definition is_leap (y : Z) : bool :=
  (Z.eqb (y mod 4) 0 && negb (Z.eqb (y mod 100) 0)) || Z.eqb (y mod 400) 0.

Definition days_in_month (y m : Z) : Z :=
  if Z.eqb m 2 then (if is_leap y then 29 else 28)
  else if Z.eqb m 4 || Z.eqb m 6 || Z.eqb m 9 || Z.eqb m 11 then 30
  else 31.

Definition hyphen : ascii := "-"%char.

Definition to_datetime_ref (arg fmt : string) : outcome datetime :=
  if String.eqb arg EmptyString || existsb (String.eqb arg) nat_strings then Return NaT
  else
    match String.list_ascii_of_string arg with
    | [y1; y2; y3; y4; h1; m1; m2; h2; d1; d2] =>
        match number 0 [y1; y2; y3; y4], number 0 [m1; m2], number 0 [d1; d2] with
        | Some y, Some m, Some d =>
            if Ascii.eqb h1 hyphen && Ascii.eqb h2 hyphen
               && Z.leb 1 m && Z.leb m 12 && Z.leb 1 d && Z.leb d (days_in_month y m)
            then Return (Timestamp ((y * 12 + (m - 1)) * 31 + (d - 1)))
            else Raise ValueError
        | _, _, _ => Raise ValueError
        end
    | _ => Raise ValueError
    end.

End Dates.

(** ** Download and merge ([build_dataframe], lines 56-98) *)

Module DataMerge.
Import Pandas.

Definition canonical_columns : list string :=
  ["ndx_ret"; "ffr"; "gs10"; "cpi"; "vix"].

Section Build.

(** Whether [pct_change] pads before dividing (see [Pandas.pct_change]). *)
Variable pad : bool.

(** [yf.download(symbol, start=start, end=end, ...)["Close"]
      .resample("ME").last()]: month-end closes, or the provider's failure. *)
Variable yahoo_close_month_end : string -> string -> string -> outcome Series.

(** [pdr.DataReader(symbol, "fred", start, end).resample("ME").last()]:
    the month-end column before [.squeeze()], or the provider's failure. *)
Variable fred_month_end : string -> string -> string -> outcome Series.

Definition build_dataframe (start end_ : string) : outcome DataFrame :=
  ndx_me ← yahoo_close_month_end "^NDX" start end_;
  let ndx_ret := set_name (on_values (pct_change pad) ndx_me) "ndx_ret" in
  ffr ← fred_month_end "FEDFUNDS" start end_;
  ffr ← assign_name (squeeze ffr) "ffr";
  gs10 ← fred_month_end "GS10" start end_;
  gs10 ← assign_name (squeeze gs10) "gs10";
  cpi ← fred_month_end "CPIAUCSL" start end_;
  cpi ← assign_name (squeeze cpi) "cpi";
  vix ← fred_month_end "VIXCLS" start end_;
  vix ← assign_name (squeeze vix) "vix";
  let df := pd_concat [ndx_ret; ffr; gs10; cpi; vix] in
  set_columns df ["ndx_ret"; "ffr"; "gs10"; "cpi"; "vix"].

End Build.

(** A series is empty, or missing at every row. *)
Definition all_missing (s : Series) : bool := forallb F64.isna (values s).

(** Sample provider answers: three month-end closes, three-month FRED
    columns under their provider names, an empty answer for VIXCLS, and an
    answer of a single month for VIXCLS. *)
Definition sample_yahoo (symbol start end_ : string) : outcome Series :=
  Return {| name := "Close"; rows := [(1, 100%float); (2, 150%float); (3, 75%float)] |}.

Definition sample_fred (symbol start end_ : string) : outcome Series :=
  Return {| name := symbol; rows := [(1, 1%float); (2, 2%float); (3, 4%float)] |}.

Definition sample_fred_no_vix (symbol start end_ : string) : outcome Series :=
  if String.eqb symbol "VIXCLS" then Return {| name := symbol; rows := [] |}
  else sample_fred symbol start end_.

Definition sample_fred_one_vix (symbol start end_ : string) : outcome Series :=
  if String.eqb symbol "VIXCLS"
  then Return {| name := symbol; rows := [(3, 20%float)] |}
  else sample_fred symbol start end_.

End DataMerge.

(** ** Stationarity testing ([adf_test], lines 101-111) *)

Module Stationarity.
Import Pandas.

(** The six-tuple [adfuller] returns. *)
Record ADFResult : Type :=
  { stat : float; pvalue : float; usedlag : Z; nobs : Z;
    crit_vals : gmap string float; icbest : float }.

Section ADF.

(** [adfuller(x, autolag="AIC")] of statsmodels. *)
Variable adfuller : Series -> outcome ADFResult.

Definition adf_test (series : Series) (label : string) : outcome ADFResult :=
  result ← adfuller (dropna series);
  (* the log line reads the three critical values *)
  _ ← getitem (crit_vals result) "1%";
  _ ← getitem (crit_vals result) "5%";
  _ ← getitem (crit_vals result) "10%";
  Return result.

End ADF.



(** A series with a missing value between observations. *)
Definition gappy_series : Series :=
  {| name := "ffr";
     rows := [(1, 1%float); (2, 3%float); (3, 2%float); (4, 5%float);
              (5, 4%float); (6, 7%float); (7, nan); (8, 5%float);
              (9, 9%float); (10, 6%float); (11, 10%float); (12, 8%float);
              (13, 12%float)] |}.


(** All values are equal ([x.max() == x.min()]). *)
Definition constant (vs : list float) : bool :=
  match vs with
  | [] => true
  | v :: vs' => forallb (F64.equal v) vs'
  end.

(** A backend that decides as statsmodels' [adfuller] does whether a test
    can be computed: it refuses an input in which it sees a missing value,
    an input of fewer than four observations (the sample is too short for
    a constant and the differencing) and a constant input.  The statistics
    it reports are placeholders. *)
Definition adfuller_strict (x : Series) : outcome ADFResult :=
  if existsb F64.isna (values x) then Raise ValueError
  else if Nat.ltb (length (rows x)) 4 then Raise ValueError
  else if constant (values x) then Raise ValueError
  else Return {| stat := 0; pvalue := 1; usedlag := 0;
                 nobs := Z.of_nat (length (rows x)) - 1;
                 crit_vals := {[ "1%" := 0%float; "5%" := 0%float; "10%" := 0%float ]};
                 icbest := 0 |}.

End Stationarity.

(** ** The transforms and the FPE line of [main] *)

Module Main.
Import Pandas.

(** Lines 143-146: the four derived columns. *)
Definition add_derived_columns (pad : bool) (df : DataFrame) : outcome DataFrame :=
  ffr ← getcol df "ffr";
  let df := setcol df "d_ffr" (diff ffr) in
  gs10 ← getcol df "gs10";
  let df := setcol df "d_gs10" (diff gs10) in
  cpi ← getcol df "cpi";
  let df := setcol df "inflation" (map (fun x => x * 100)%float (pct_change pad cpi)) in
  vix ← getcol df "vix";
  let df := setcol df "d_vix" (diff vix) in
  Return df.

Definition derived_columns : list string :=
  ["d_ffr"; "d_gs10"; "inflation"; "d_vix"].

(** A frame with the five columns of [build_dataframe], for running the
    transforms. *)
Definition sample_frame : DataFrame :=
  {| index := [1; 2; 3];
     columns := [("ndx_ret", [nan; 0.5; -0.5]%float); ("ffr", [1; 2; 4]%float);
                 ("gs10", [1; 2; 4]%float); ("cpi", [100; 150; 75]%float);
                 ("vix", [20; 10; 30]%float)] |}.

(** The same frame with a gap in [cpi] at the second period. *)
Definition gap_frame : DataFrame :=
  {| index := [1; 2; 3];
     columns := [("ndx_ret", [nan; 0.5; -0.5]%float); ("ffr", [1; 2; 4]%float);
                 ("gs10", [1; 2; 4]%float); ("cpi", [100%float; nan; 75%float]);
                 ("vix", [20; 10; 30]%float)] |}.

(** Lines 165-168 over exact arithmetic: a division by zero is undefined
    and is reported as [ZeroDivisionError]. *)
Definition divide (a b : Q) : outcome Q :=
  if Qeq_bool b 0 then Raise ZeroDivisionError else Return (a / b)%Q.

(** [fpe = (ssr / n) * ((n + k) / (n - k))] *)
Definition fpe (ssr : Q) (n k : Z) : outcome Q :=
  a ← divide ssr (inject_Z n);
  b ← divide (inject_Z (n + k)) (inject_Z (n - k));
  Return (a * b)%Q.

(** [ols.ssr]: the sum of the squared residuals. *)
Definition sum_squares (resid : list Q) : Q :=
  fold_right (fun e acc => e * e + acc)%Q 0%Q resid.

(** The second computation path, following the specification's wording:
    [mean(resid^2) * (n + k) / (n - k)] with [n] the number of residuals. *)
Definition fpe_from_residuals (resid : list Q) (k : Z) : outcome Q :=
  let n := Z.of_nat (length resid) in
  m ← divide (sum_squares resid) (inject_Z n);
  divide (m * inject_Z (n + k))%Q (inject_Z (n - k)).

(** Two outcomes over the rationals agree. *)
Definition agree (x y : outcome Q) : Prop :=
  match x, y with
  | Return a, Return b => (a == b)%Q
  | Raise e1, Raise e2 => e1 = e2
  | Exit c1, Exit c2 => c1 = c2
  | _, _ => False
  end.

End Main.

(** ** Fetching one series ([fetch_series], lines 34-54) *)

Module Fetch.
Import Pandas.

(** [symbol.lower()] on the ASCII letters, which is what ticker symbols are
    made of; every other character stays. *)
Definition lower_char (c : ascii) : ascii :=
  let n := nat_of_ascii c in
  if Nat.leb 65 n && Nat.leb n 90 then ascii_of_nat (n + 32) else c.

Fixpoint lower (s : string) : string :=
  match s with
  | EmptyString => EmptyString
  | String c s' => String (lower_char c) (lower s')
  end.

(** The default [freq="ME"] of the signature. *)
Definition default_freq : string := "ME".

Section FetchSeries.

(** Whether [pct_change] pads before dividing (see [Pandas.pct_change]). *)
Variable pad : bool.

(** [yf.download(symbol, start=start, end=end, progress=False)["Close"]
      .resample(freq).last()], arguments in the order symbol, start, end,
    freq. *)
Variable yahoo_close : string -> string -> string -> string -> outcome Series.

(** [pdr.DataReader(symbol, "fred", start, end).resample(freq).last()],
    the column before [.squeeze()], arguments in the same order. *)
Variable fred : string -> string -> string -> string -> outcome Series.

(** The [except Exception] clause logs and re-raises, so a failure of a
    provider reaches the caller as it is. *)
Definition fetch_series (symbol source start end_ freq : string) : outcome Series :=
  series ← (if String.eqb source "yahoo"
            then close ← yahoo_close symbol start end_ freq;
                 Return (AsSeries (on_values (pct_change pad) close))
            else frame ← fred symbol start end_ freq;
                 Return (squeeze frame));
  assign_name series (lower symbol).

End FetchSeries.

(** Sample provider answers under provider names. *)
Definition sample_yahoo_close (symbol start end_ freq : string) : outcome Series :=
  Return {| name := "Close"; rows := [(1, 100%float); (2, 150%float); (3, 75%float)] |}.

Definition sample_fred_series (symbol start end_ freq : string) : outcome Series :=
  Return {| name := symbol; rows := [(1, 1%float); (2, 2%float); (3, 4%float)] |}.

Definition failing_provider (symbol start end_ freq : string) : outcome Series :=
  Raise (OtherError "RemoteDataError").

Definition sample_fred_one_row (symbol start end_ freq : string) : outcome Series :=
  Return {| name := symbol; rows := [(3, 4%float)] |}.

End Fetch.

(** ** The regression sample of [main] (lines 134-153) *)

Module Sample.
Import Pandas.

(** [df[label]] as a series: the column on the index of the frame. *)
Definition column_series (df : DataFrame) (label : string) : outcome Series :=
  vs ← getcol df label;
  Return {| name := label; rows := combine (index df) vs |}.

(** [df[labels]]: the listed columns, in the order of the list. *)
Fixpoint pick_columns (df : DataFrame) (labels : list string)
  : outcome (list (string * list float)) :=
  match labels with
  | [] => Return []
  | l :: ls =>
      vs ← getcol df l;
      rest ← pick_columns df ls;
      Return ((l, vs) :: rest)
  end.

Definition select_columns (df : DataFrame) (labels : list string) : outcome DataFrame :=
  cols ← pick_columns df labels;
  Return {| index := index df; columns := cols |}.

(** A row is complete when every column has an observation there. *)
Definition row_complete (cols : list (string * list float)) (i : nat) : bool :=
  forallb (fun c : string * list float =>
             match c.2 !! i with
             | Some v => negb (F64.isna v)
             | None => false
             end) cols.

(** The entries of a list at the rows that are kept. *)
Fixpoint keep_rows {A : Type} (keep : list bool) (l : list A) : list A :=
  match keep, l with
  | k :: keep', x :: l' => if k then x :: keep_rows keep' l' else keep_rows keep' l'
  | _, _ => []
  end.

(** [.dropna()] on a frame: every row with a missing value goes. *)
Definition dropna_rows (df : DataFrame) : DataFrame :=
  let keep := map (row_complete (columns df)) (seq 0 (length (index df))) in
  {| index := keep_rows keep (index df);
     columns := map (fun c : string * list float => (c.1, keep_rows keep c.2))
                    (columns df) |}.

Definition regression_columns : list string :=
  ["ndx_ret"; "d_ffr"; "d_gs10"; "inflation"; "d_vix"].

(** Line 153: [df[[...]].dropna()]. *)
Definition regression_sample (df : DataFrame) : outcome DataFrame :=
  sel ← select_columns df regression_columns;
  Return (dropna_rows sel).

(** [for col in labels: adf_test(df[col], col)]; the results are logged
    and dropped. *)
Definition adf_each (adfuller : Series -> outcome Stationarity.ADFResult)
  (df : DataFrame) (labels : list string) : outcome unit :=
  for_each (fun (_ : unit) (col : string) =>
              s ← column_series df col;
              _ ← Stationarity.adf_test adfuller s col;
              Return tt) labels tt.

Section MainSample.

Variable pad : bool.
Variable to_datetime : string -> string -> outcome Dates.datetime.
Variable yahoo_close_month_end : string -> string -> string -> outcome Series.
Variable fred_month_end : string -> string -> string -> outcome Series.
Variable adfuller : Series -> outcome Stationarity.ADFResult.

(** Lines 134-153 of [main]: validate, download, test the levels, add the
    transforms, test them, and cut the regression sample. *)
Definition main_sample (start end_ : string) : outcome DataFrame :=
  dates ← Dates.validate_dates to_datetime start end_;
  df ← DataMerge.build_dataframe pad yahoo_close_month_end fred_month_end
         dates.1 dates.2;
  _ ← adf_each adfuller df (column_names df);
  df ← Main.add_derived_columns pad df;
  _ ← adf_each adfuller df regression_columns;
  regression_sample df.

End MainSample.

(** A frame is well formed when every column has one value per index
    entry. *)
Definition well_formed (df : DataFrame) : Prop :=
  Forall (fun c : string * list float => length c.2 = length (index df)) (columns df).

(** A backend that accepts any input with at least one observation. *)
Definition adfuller_lenient (x : Series) : outcome Stationarity.ADFResult :=
  if Nat.eqb (length (rows x)) 0 then Raise ValueError
  else Return {| Stationarity.stat := 0; Stationarity.pvalue := 1;
                 Stationarity.usedlag := 0;
                 Stationarity.nobs := Z.of_nat (length (rows x)) - 1;
                 Stationarity.crit_vals :=
                   {[ "1%" := 0%float; "5%" := 0%float; "10%" := 0%float ]};
                 Stationarity.icbest := 0 |}.

End Sample.

(** * Properties *)

(** ** Order facts on binary64 values *)

Module F64Facts.
Import F64.

Lemma SFltb_irrefl a : SFltb a a = false.
Proof.
  unfold SFltb, SFcompare.
  destruct a as [[] | [] | | [] m e]; try reflexivity;
    rewrite Z.compare_refl, Pos.compare_cont_refl; reflexivity.
Qed.

Ltac cmp_cases :=
  repeat match goal with
  | |- context [Z.compare ?a ?b] => destruct (Z.compare_spec a b)
  | H : context [Z.compare ?a ?b] |- _ => destruct (Z.compare_spec a b)
  | |- context [Pos.compare_cont Eq ?a ?b] =>
      change (Pos.compare_cont Eq a b) with (Pos.compare a b);
      destruct (Pos.compare_spec a b)
  | H : context [Pos.compare_cont Eq ?a ?b] |- _ =>
      change (Pos.compare_cont Eq a b) with (Pos.compare a b) in H;
      destruct (Pos.compare_spec a b)
  end.

Lemma SFltb_trans a b c :
  SFltb a b = true -> SFltb b c = true -> SFltb a c = true.
Proof.
  unfold SFltb, SFcompare.
  destruct a as [[] | [] | | [] ma ea], b as [[] | [] | | [] mb eb],
    c as [[] | [] | | [] mc ec]; simpl; intros Hab Hbc;
    try reflexivity; try discriminate;
    cmp_cases; simpl in *; try reflexivity; try discriminate; subst; lia.
Qed.

Lemma SFeqb_ltb a b c :
  SFeqb a b = true -> SFltb b c = true -> SFltb a c = true.
Proof.
  unfold SFeqb, SFltb, SFcompare.
  destruct a as [[] | [] | | [] ma ea], b as [[] | [] | | [] mb eb],
    c as [[] | [] | | [] mc ec]; simpl; intros Hab Hbc;
    try reflexivity; try discriminate;
    cmp_cases; simpl in *; try reflexivity; try discriminate; subst; lia.
Qed.

Lemma lt_irrefl x : lt x x = false.
Proof. unfold lt. rewrite ltb_spec. apply SFltb_irrefl. Qed.

Lemma lt_trans x y z : lt x y = true -> lt y z = true -> lt x z = true.
Proof. unfold lt. rewrite !ltb_spec. apply SFltb_trans. Qed.

Lemma equal_lt x y z : equal x y = true -> lt y z = true -> lt x z = true.
Proof.
  unfold equal, lt. rewrite FloatAxioms.eqb_spec, !ltb_spec. apply SFeqb_ltb.
Qed.

Lemma Prim2SF_nan : Prim2SF nan = S754_nan.
Proof. reflexivity. Qed.

(** A missing value is the one NaN. *)
Lemma isna_true x : isna x = true -> x = nan.
Proof.
  unfold isna, is_nan. rewrite FloatAxioms.eqb_spec. intros H.
  apply Prim2SF_inj. rewrite Prim2SF_nan.
  destruct (Prim2SF x) as [[] | [] | | [] m e];
    try reflexivity; try discriminate;
    unfold SFeqb, SFcompare in H;
    rewrite Z.compare_refl, Pos.compare_cont_refl in H; discriminate.
Qed.

(** NaN propagates through the arithmetic of the transforms. *)
Lemma div_nan_r x : (x / nan)%float = nan.
Proof.
  apply Prim2SF_inj. rewrite div_spec, Prim2SF_nan.
  destruct (Prim2SF x) as [[] | [] | | [] m e]; reflexivity.
Qed.

Lemma div_nan_l y : (nan / y)%float = nan.
Proof. apply Prim2SF_inj. rewrite div_spec, Prim2SF_nan. reflexivity. Qed.

Lemma sub_nan_l y : (nan - y)%float = nan.
Proof. apply Prim2SF_inj. rewrite sub_spec, Prim2SF_nan. reflexivity. Qed.

Lemma SF64mul_comm a b : SF64mul a b = SF64mul b a.
Proof.
  unfold SF64mul, SFmul.
  destruct a as [sa | sa | | sa ma ea], b as [sb | sb | | sb mb eb];
    try reflexivity; rewrite (xorb_comm sa sb); try reflexivity.
  rewrite (Pos.mul_comm ma mb), (Z.add_comm ea eb). reflexivity.
Qed.

Lemma mul_comm x y : (x * y)%float = (y * x)%float.
Proof. apply Prim2SF_inj. rewrite !mul_spec. apply SF64mul_comm. Qed.

End F64Facts.

(** ** General facts on loops and ranges *)

Lemma for_each_app {S X : Type} (body : S -> X -> outcome S) (xs ys : list X) (s : S) :
  for_each body (xs ++ ys)%list s = (s' ← for_each body xs s; for_each body ys s').
Proof.
  revert s. induction xs as [| x xs IH]; intros s; simpl; [reflexivity |].
  destruct (body s x) as [s1 | e | c]; simpl; auto.
Qed.

Lemma range_empty (a b : Z) : b <= a -> range a b = [].
Proof.
  intros H. unfold range. replace (Z.to_nat (b - a)) with 0%nat by lia. reflexivity.
Qed.

Lemma range_snoc (n : nat) :
  range 1 (Z.of_nat (S n) + 1) = (range 1 (Z.of_nat n + 1) ++ [Z.of_nat (S n)])%list.
Proof.
  unfold range.
  replace (Z.to_nat (Z.of_nat (S n) + 1 - 1)) with (S n) by lia.
  replace (Z.to_nat (Z.of_nat n + 1 - 1)) with n by lia.
  rewrite seq_S, map_app. simpl. f_equal. f_equal. lia.
Qed.

Lemma in_range (n : nat) (L : Z) :
  In L (range 1 (Z.of_nat n + 1)) <-> 1 <= L <= Z.of_nat n.
Proof.
  unfold range. replace (Z.to_nat (Z.of_nat n + 1 - 1)) with n by lia.
  rewrite in_map_iff. split.
  - intros (i & <- & Hi). apply in_seq in Hi. lia.
  - intros H. exists (Z.to_nat (L - 1)). split; [lia |]. apply in_seq. lia.
Qed.

(** ** Lag selection *)

Module LagFacts.
Import LagSelection.

Lemma view_parts key st acc :
  view key st = Some acc <-> st.1 !! key = Some acc.1 /\ st.2 !! key = Some acc.2.
Proof.
  unfold view. destruct acc as [b l]. simpl.
  destruct (st.1 !! key) as [b' |], (st.2 !! key) as [l' |]; simpl;
    split; try (intros [? ?]); try intros ?; try discriminate; try congruence.
  split; congruence.
Qed.

(** An update acts on its own key as [pick] does, and on no other key. *)
Lemma update_view key v lag st acc :
  view key st = Some acc ->
  exists st', update key v lag st = Return st' /\
    view key st' = Some (if F64.lt v acc.1 then (v, Some lag) else acc) /\
    forall k, k <> key -> view k st' = view k st.
Proof.
  intros Hv. pose proof Hv as Hv'. apply view_parts in Hv' as [H1 H2].
  unfold update, getitem. rewrite H1. simpl.
  destruct (F64.lt v acc.1); eexists; (split; [reflexivity |]); split; auto.
  - unfold view. simpl. rewrite !lookup_insert_eq. reflexivity.
  - intros k Hk. unfold view. simpl.
    rewrite !lookup_insert_ne by congruence. reflexivity.
Qed.

Section Facts.

Context {Endog Exog : Type}.
Variable fit_lagged : Endog -> Exog -> Z -> outcome OLSResults.
Variable endog : Endog.
Variable exog : Exog.

Abbreviation criterion := (criterion fit_lagged endog exog).
Abbreviation body := (body fit_lagged endog exog).
Abbreviation fits L := (exists mdl, fit_lagged endog exog L = Return mdl).

Lemma body_tracks st a b f lag :
  tracks st a b f -> fits lag ->
  exists st', body st lag = Return st' /\
    tracks st' (pick (criterion "aic") a lag) (pick (criterion "bic") b lag)
               (pick (criterion "fpe") f lag).
Proof.
  intros (Ha & Hb & Hf) [mdl Hfit].
  unfold body, pick, LagSelection.criterion. rewrite Hfit. simpl.
  destruct (update_view "aic" (aic mdl) lag st a Ha) as (st1 & E1 & V1 & O1).
  rewrite E1. simpl.
  rewrite <- (O1 "bic") in Hb by discriminate.
  rewrite <- (O1 "fpe") in Hf by discriminate.
  destruct (update_view "bic" (bic mdl) lag st1 b Hb) as (st2 & E2 & V2 & O2).
  rewrite E2. simpl.
  rewrite <- (O2 "aic") in V1 by discriminate.
  rewrite <- (O2 "fpe") in Hf by discriminate.
  unfold crit. simpl.
  destruct (fpe mdl) as [v |].
  - destruct (update_view "fpe" v lag st2 f Hf) as (st3 & E3 & V3 & O3).
    exists st3. split; [exact E3 |].
    rewrite <- (O3 "aic") in V1 by discriminate.
    rewrite <- (O3 "bic") in V2 by discriminate.
    repeat split; assumption.
  - exists st2. repeat split; auto.
Qed.

Lemma loop_tracks ls : forall st a b f,
  tracks st a b f -> Forall (fun L => fits L) ls ->
  exists st', for_each body ls st = Return st' /\
    tracks st' (fold_left (pick (criterion "aic")) ls a)
               (fold_left (pick (criterion "bic")) ls b)
               (fold_left (pick (criterion "fpe")) ls f).
Proof.
  induction ls as [| L ls IH]; intros st a b f Ht Hall; simpl.
  - exists st. split; auto.
  - inversion Hall as [| ? ? HL Hrest]; subst.
    destruct (body_tracks st a b f L Ht HL) as (st1 & E1 & T1).
    rewrite E1. simpl. apply IH; assumption.
Qed.

Lemma initial_tracks :
  tracks (best0, best_lag0) (infinity, None) (infinity, None) (infinity, None).
Proof. repeat split. Qed.

(** The accumulator of one criterion along the lags [1..n]. *)
Lemma pick_minimal (val : Z -> option float) (n : nat) :
  minimal_upto val (Z.of_nat n)
    (fold_left (pick val) (range 1 (Z.of_nat n + 1)) (infinity, None)).
Proof.
  induction n as [| n IH].
  - simpl. split; simpl; intros; try discriminate; try reflexivity; lia.
  - rewrite range_snoc, fold_left_app. simpl.
    set (acc := fold_left (pick val) (range 1 (Z.of_nat n + 1)) (infinity, None)) in *.
    destruct IH as [Hnone Hsome Hlow Hfirst].
    unfold pick at 1.
    destruct (val (Z.of_nat (S n))) as [v |] eqn:Hval.
    + destruct (F64.lt v acc.1) eqn:Hlt.
      * split; simpl.
        -- discriminate.
        -- intros L [= <-]. split; [lia |]. split; [exact Hval |].
           destruct acc.2 as [L0 |] eqn:Hacc.
           ++ destruct (Hsome L0 eq_refl) as (_ & _ & Hinf).
              eapply F64Facts.lt_trans; eassumption.
           ++ rewrite <- (Hnone eq_refl). exact Hlt.
        -- intros L v' HL HvL.
           destruct (Z.eq_dec L (Z.of_nat (S n))) as [-> | Hne].
           ++ rewrite Hval in HvL. injection HvL as <-. apply F64Facts.lt_irrefl.
           ++ destruct (F64.lt v' v) eqn:Hc; [| reflexivity].
              rewrite <- (Hlow L v'); [| lia | exact HvL].
              symmetry. eapply F64Facts.lt_trans; eassumption.
        -- intros L L' v' [= <-] HL' HvL'.
           destruct (F64.equal v' v) eqn:Hc; [| reflexivity].
           rewrite <- (Hlow L' v'); [| lia | exact HvL'].
           symmetry. eapply F64Facts.equal_lt; eassumption.
      * split.
        -- exact Hnone.
        -- intros L HL. destruct (Hsome L HL) as (? & ? & ?). repeat split; auto; lia.
        -- intros L v' HL HvL.
           destruct (Z.eq_dec L (Z.of_nat (S n))) as [-> | Hne].
           ++ rewrite Hval in HvL. injection HvL as <-. exact Hlt.
           ++ apply (Hlow L); [lia | exact HvL].
        -- exact Hfirst.
    + split.
      * exact Hnone.
      * intros L HL. destruct (Hsome L HL) as (? & ? & ?). repeat split; auto; lia.
      * intros L v' HL HvL.
        destruct (Z.eq_dec L (Z.of_nat (S n))) as [-> | Hne].
        -- rewrite Hval in HvL. discriminate.
        -- apply (Hlow L); [lia | exact HvL].
      * exact Hfirst.
Qed.

(** The call returns, and each entry of the result is the lag held by the
    accumulator of its criterion. *)
Lemma select_returns (max_lag : Z) :
  (forall L, 1 <= L <= max_lag -> fits L) ->
  exists r, select_lag_length fit_lagged endog exog max_lag = Return r /\
    forall key, In key criteria ->
      exists acc, r !! key = Some acc.2 /\
        minimal_upto (criterion key) (Z.max 0 max_lag) acc.
Proof.
  intros Hfits.
  set (n := Z.to_nat max_lag).
  assert (Hr : range 1 (max_lag + 1) = range 1 (Z.of_nat n + 1)).
  { unfold range. f_equal. f_equal. lia. }
  assert (Hn : Z.of_nat n = Z.max 0 max_lag) by lia.
  destruct (loop_tracks (range 1 (max_lag + 1)) _ _ _ _ initial_tracks)
    as (st & Hloop & Ha & Hb & Hf).
  { apply List.Forall_forall. intros L HL. rewrite Hr in HL.
    apply in_range in HL. apply Hfits. lia. }
  exists st.2. split.
  - unfold select_lag_length. rewrite Hloop. reflexivity.
  - rewrite Hr in Ha, Hb, Hf. rewrite <- Hn.
    intros key [<- | [<- | [<- | []]]];
      match goal with
      | H : view ?k st = Some ?acc |- context [st.2 !! ?k] =>
          exists acc; split; [apply view_parts in H; apply H | apply pick_minimal]
      end.
Qed.

(** C1, as amended.  With [max_lag >= 1] and every fit succeeding, the call
    returns a mapping with the three keys; each entry is [None] or a lag in
    [1, max_lag], and it is a lag exactly when some lag of the grid offers
    that criterion with a value strictly below plus infinity. *)
Theorem select_lag_length_entries (max_lag : Z) :
  1 <= max_lag ->
  (forall L, 1 <= L <= max_lag -> fits L) ->
  exists r, select_lag_length fit_lagged endog exog max_lag = Return r /\
    forall key, In key criteria ->
      exists entry, r !! key = Some entry /\
        (forall L, entry = Some L -> 1 <= L <= max_lag) /\
        (is_Some entry <->
         exists L v, 1 <= L <= max_lag /\ criterion key L = Some v /\
                     F64.lt v infinity = true).
Proof.
  intros Hmax Hfits.
  destruct (select_returns max_lag Hfits) as (r & Hr & Hkeys).
  exists r. split; [exact Hr |]. intros key Hkey.
  destruct (Hkeys key Hkey) as ([b l] & Hl & [Hnone Hsome Hlow Hfirst]).
  simpl in *. replace (Z.max 0 max_lag) with max_lag in * by lia.
  exists l. split; [exact Hl |]. split.
  - intros L ->. apply (Hsome L eq_refl).
  - split.
    + intros [L ->]. destruct (Hsome L eq_refl) as (HL & Hv & Hinf).
      exists L, b. auto.
    + intros (L & v & HL & Hv & Hinf). destruct l as [L0 |]; [eexists; reflexivity |].
      rewrite (Hnone eq_refl) in Hlow. rewrite (Hlow L v HL Hv) in Hinf.
      discriminate.
Qed.

(** C2.  For each criterion, a lag is returned exactly when some lag of
    the grid has a value of the criterion strictly below the initial plus
    infinity, and the lag returned is the smallest lag attaining the
    minimum: it is in the grid, no lag of the grid has a strictly smaller
    value, and no earlier lag has an equal value (a tie keeps the earlier
    lag). *)
Theorem select_lag_length_first_minimum (max_lag : Z) :
  (forall L, 1 <= L <= max_lag -> fits L) ->
  exists r, select_lag_length fit_lagged endog exog max_lag = Return r /\
    forall key, In key criteria ->
      exists entry, r !! key = Some entry /\
        (is_Some entry <->
         exists L v, 1 <= L <= max_lag /\ criterion key L = Some v /\
                     F64.lt v infinity = true) /\
        forall L, entry = Some L ->
          1 <= L <= max_lag /\
          exists v, criterion key L = Some v /\
            (forall L' v', 1 <= L' <= max_lag -> criterion key L' = Some v' ->
               F64.lt v' v = false) /\
            (forall L' v', 1 <= L' < L -> criterion key L' = Some v' ->
               F64.equal v' v = false).
Proof.
  intros Hfits.
  destruct (select_returns max_lag Hfits) as (r & Hr & Hkeys).
  exists r. split; [exact Hr |]. intros key Hkey.
  destruct (Hkeys key Hkey) as ([b l] & Hl & [Hnone Hsome Hlow Hfirst]).
  simpl in *. exists l. split; [exact Hl |]. split.
  - split.
    + intros [L ->]. destruct (Hsome L eq_refl) as (HL & Hv & Hinf).
      exists L, b. split; [lia | auto].
    + intros (L & v & HL & Hv & Hinf). destruct l as [L0 |]; [eexists; reflexivity |].
      rewrite (Hnone eq_refl) in Hlow.
      rewrite (Hlow L v) in Hinf; [discriminate | lia | exact Hv].
  - intros L ->. destruct (Hsome L eq_refl) as (HLr & Hv & _).
    split; [lia |]. exists b. split; [exact Hv |]. split.
    + intros L' v' HL' Hv'. apply (Hlow L'); [lia | exact Hv'].
    + intros L' v' HL' Hv'. apply (Hfirst L L'); auto.
Qed.

(** C9.  With [max_lag < 1] the grid is empty: no fit is attempted, nothing
    is raised, and the three entries of the result are [None]. *)
Theorem select_lag_length_empty_grid (max_lag : Z) :
  max_lag < 1 ->
  select_lag_length fit_lagged endog exog max_lag
  = Return {[ "aic" := None; "bic" := None; "fpe" := None ]}.
Proof.
  intros H. unfold select_lag_length. rewrite range_empty by lia. reflexivity.
Qed.

End Facts.

Lemma select_lag_length_entries_witness :
  1 <= 3 /\
  exists r, select_lag_length fit_with_fpe tt tt 3 = Return r /\
    forall key, In key criteria ->
      exists entry, r !! key = Some entry /\
        (forall L, entry = Some L -> 1 <= L <= 3) /\
        (is_Some entry <->
         exists L v, 1 <= L <= 3 /\ criterion fit_with_fpe tt tt key L = Some v /\
                     F64.lt v infinity = true).
Proof.
  split; [lia |].
  apply (select_lag_length_entries fit_with_fpe tt tt 3); [lia |].
  intros L _. eexists. reflexivity.
Defined.

(** C1 as stated fails: every fit succeeds and [max_lag = 3], yet the
    ["fpe"] entry of the result is [None], because no fitted model carries
    an [fpe] attribute. *)
Lemma select_lag_length_fpe_unassigned :
  1 <= 3 /\
  (forall L, 1 <= L <= 3 -> exists mdl, fit_plain tt tt L = Return mdl) /\
  select_lag_length fit_plain tt tt 3
  = Return {[ "aic" := Some 2; "bic" := Some 1; "fpe" := None ]} /\
  ({[ "aic" := Some 2; "bic" := Some 1; "fpe" := None ]}
     : gmap string (option Z)) !! "fpe" = Some None.
Proof.
  split; [lia |]. split; [intros L _; eexists; reflexivity |].
  split; vm_compute; reflexivity.
Qed.

Lemma select_lag_length_first_minimum_witness :
  exists r, select_lag_length fit_with_fpe tt tt 3 = Return r /\
    forall key, In key criteria ->
      exists entry, r !! key = Some entry /\
        (is_Some entry <->
         exists L v, 1 <= L <= 3 /\ criterion fit_with_fpe tt tt key L = Some v /\
                     F64.lt v infinity = true) /\
        forall L, entry = Some L ->
          1 <= L <= 3 /\
          exists v, criterion fit_with_fpe tt tt key L = Some v /\
            (forall L' v', 1 <= L' <= 3 ->
               criterion fit_with_fpe tt tt key L' = Some v' -> F64.lt v' v = false) /\
            (forall L' v', 1 <= L' < L ->
               criterion fit_with_fpe tt tt key L' = Some v' ->
               F64.equal v' v = false).
Proof.
  apply (select_lag_length_first_minimum fit_with_fpe tt tt 3).
  intros L _. eexists. reflexivity.
Defined.

Lemma select_lag_length_empty_grid_witness :
  0 < 1 /\
  select_lag_length fit_failing tt tt 0
  = Return {[ "aic" := None; "bic" := None; "fpe" := None ]}.
Proof.
  split; [lia |]. apply (select_lag_length_empty_grid fit_failing tt tt 0). lia.
Defined.

(** The tie of [fit_with_fpe] at lags 2 and 3 goes to lag 2. *)
Example select_lag_length_tie :
  select_lag_length fit_with_fpe tt tt 3
  = Return {[ "aic" := Some 2; "bic" := Some 1; "fpe" := Some 3 ]}.
Proof. vm_compute. reflexivity. Qed.

End LagFacts.

(** ** Date validation *)

Module DatesFacts.
Import Dates.

Section Facts.

Variable to_datetime : string -> string -> outcome datetime.

(** When both strings parse to points on the time line, the pair comes back
    exactly when the start precedes the end; otherwise the call exits. *)
Lemma validate_dates_timestamps start end_ a b :
  to_datetime start DATE_FMT = Return (Timestamp a) ->
  to_datetime end_ DATE_FMT = Return (Timestamp b) ->
  validate_dates to_datetime start end_
  = if lt (Timestamp a) (Timestamp b) then Return (start, end_) else Exit 1.
Proof.
  intros Hs He. unfold validate_dates. rewrite Hs. simpl. rewrite He. simpl.
  destruct (Z.leb_spec b a), (Z.ltb_spec a b); try reflexivity; lia.
Qed.

(** A string pandas rejects ends the run with [sys.exit(1)]. *)
Lemma validate_dates_rejected_start start end_ :
  to_datetime start DATE_FMT = Raise ValueError ->
  validate_dates to_datetime start end_ = Exit 1.
Proof. intros Hs. unfold validate_dates. rewrite Hs. reflexivity. Qed.

Lemma validate_dates_rejected_end start end_ s :
  to_datetime start DATE_FMT = Return s ->
  to_datetime end_ DATE_FMT = Raise ValueError ->
  validate_dates to_datetime start end_ = Exit 1.
Proof. intros Hs He. unfold validate_dates. rewrite Hs. simpl. rewrite He. reflexivity. Qed.

(** A string pandas turns into [NaT] passes the order check, whatever the
    other string parses to: [NaT >= e] and [s >= NaT] are both false. *)
Lemma validate_dates_NaT_start start end_ e :
  to_datetime start DATE_FMT = Return NaT ->
  to_datetime end_ DATE_FMT = Return e ->
  validate_dates to_datetime start end_ = Return (start, end_).
Proof. intros Hs He. unfold validate_dates. rewrite Hs. simpl. rewrite He. reflexivity. Qed.

Lemma validate_dates_NaT_end start end_ s :
  to_datetime start DATE_FMT = Return s ->
  to_datetime end_ DATE_FMT = Return NaT ->
  validate_dates to_datetime start end_ = Return (start, end_).
Proof.
  intros Hs He. unfold validate_dates. rewrite Hs. simpl. rewrite He. simpl.
  destruct s; reflexivity.
Qed.

End Facts.

(** C6 at the failing input.  The empty string is not a [YYYY-MM-DD] date,
    yet pandas parses it to [NaT] instead of raising, the check [s >= e] is
    false on [NaT], and the pair is returned. *)
Theorem validate_dates_empty_start_returns :
  validate_dates to_datetime_ref EmptyString "2024-04-30"
  = Return (EmptyString, "2024-04-30").
Proof. vm_compute. reflexivity. Qed.

(** The intended behaviour on well-formed and on malformed input. *)
Example validate_dates_ordered :
  validate_dates to_datetime_ref "2020-01-01" "2024-04-30"
  = Return ("2020-01-01", "2024-04-30").
Proof. vm_compute. reflexivity. Qed.

Example validate_dates_equal :
  validate_dates to_datetime_ref "2020-01-01" "2020-01-01" = Exit 1.
Proof. vm_compute. reflexivity. Qed.

Example validate_dates_reversed :
  validate_dates to_datetime_ref "2024-04-30" "2020-01-01" = Exit 1.
Proof. vm_compute. reflexivity. Qed.

Example validate_dates_malformed :
  validate_dates to_datetime_ref "01/01/2020" "2024-04-30" = Exit 1.
Proof. vm_compute. reflexivity. Qed.

End DatesFacts.

(** ** Stationarity testing *)

Module StationarityFacts.
Import Pandas Stationarity.





Section Facts.

Variable adfuller : Series -> outcome ADFResult.


End Facts.



End StationarityFacts.

(** ** The column operations *)

Module PandasFacts.
Import Pandas.

Lemma length_shift (vs : list float) : length (shift vs) = length vs.
Proof. unfold shift. rewrite length_take. simpl. lia. Qed.

Lemma shift_lookup_0 (v : float) (vs : list float) :
  shift (v :: vs) !! 0%nat = Some nan.
Proof. reflexivity. Qed.

Lemma shift_lookup_S (vs : list float) (t : nat) (x : float) :
  vs !! S t = Some x -> shift vs !! S t = vs !! t.
Proof.
  intros H. apply lookup_lt_Some in H. unfold shift.
  rewrite lookup_take_lt by lia. reflexivity.
Qed.

Lemma length_ffill_from (last : float) (vs : list float) :
  length (ffill_from last vs) = length vs.
Proof. revert last. induction vs as [| v vs IH]; intros last; simpl; auto. Qed.

(** Padding leaves an observation where it is. *)
Lemma ffill_from_observed (vs : list float) : forall last t x,
  vs !! t = Some x -> F64.isna x = false -> ffill_from last vs !! t = Some x.
Proof.
  induction vs as [| v vs IH]; intros last t x Ht Hx; [discriminate |].
  destruct t as [| t]; simpl in *.
  - injection Ht as ->. rewrite Hx. reflexivity.
  - apply IH; assumption.
Qed.

Lemma ffill_from_all_missing (vs : list float) :
  Forall (fun v => v = nan) vs -> Forall (fun v => v = nan) (ffill_from nan vs).
Proof.
  induction 1 as [| v vs Hv Hvs IH]; simpl; constructor.
  - subst v. reflexivity.
  - subst v. exact IH.
Qed.

Lemma length_pct_change (pad : bool) (vs : list float) :
  length (pct_change pad vs) = length vs.
Proof.
  unfold pct_change. rewrite length_zip_with, length_shift.
  destruct pad; unfold ffill; rewrite ?length_ffill_from; lia.
Qed.

(** The percent change at a row whose predecessor is observed.  Under
    padding the row itself has to be observed as well. *)
Lemma pct_change_lookup (pad : bool) (vs : list float) (t : nat) (x y : float) :
  vs !! t = Some y -> vs !! S t = Some x ->
  F64.isna y = false -> (pad = true -> F64.isna x = false) ->
  pct_change pad vs !! S t = Some (x / y - 1)%float.
Proof.
  intros Hy Hx Hny Hnx. unfold pct_change.
  set (data := if pad then ffill vs else vs).
  assert (Hd : data !! t = Some y /\ data !! S t = Some x).
  { subst data. destruct pad; [| auto]. unfold ffill.
    split; apply ffill_from_observed; auto. }
  destruct Hd as [Hdy Hdx].
  rewrite lookup_zip_with, Hdx. simpl.
  rewrite (shift_lookup_S data t x Hdx), Hdy. reflexivity.
Qed.

(** Padding puts the last observation into a gap that follows it. *)
Lemma ffill_from_next (vs : list float) : forall last t x y,
  vs !! t = Some y -> F64.isna y = false -> vs !! S t = Some x ->
  ffill_from last vs !! S t = Some (if F64.isna x then y else x).
Proof.
  induction vs as [| v vs IH]; intros last t x y Hy Hny Hx; [discriminate |].
  destruct t as [| t]; simpl in *.
  - injection Hy as ->. rewrite Hny.
    destruct vs as [| x' vs']; [discriminate |].
    simpl in Hx. injection Hx as ->. reflexivity.
  - apply IH; assumption.
Qed.

(** The percent change at a row whose predecessor is observed, whether the
    row itself is observed or not: under padding a gap is first filled with
    the predecessor. *)
Lemma pct_change_after_observed (pad : bool) (vs : list float) (t : nat) (x y : float) :
  vs !! t = Some y -> vs !! S t = Some x -> F64.isna y = false ->
  pct_change pad vs !! S t
  = Some ((if pad && F64.isna x then y else x) / y - 1)%float.
Proof.
  intros Hy Hx Hny. unfold pct_change.
  set (data := if pad then ffill vs else vs).
  assert (Hd : data !! t = Some y /\
               data !! S t = Some (if pad && F64.isna x then y else x)).
  { subst data. destruct pad; simpl; [| auto]. unfold ffill. split.
    - apply ffill_from_observed; auto.
    - apply ffill_from_next; auto. }
  destruct Hd as [Hdy Hdx].
  rewrite lookup_zip_with, Hdx. simpl.
  rewrite (shift_lookup_S data t _ Hdx), Hdy. reflexivity.
Qed.

(** The first row has no predecessor: its percent change is missing. *)
Lemma pct_change_first (pad : bool) (v : float) (vs : list float) :
  pct_change pad (v :: vs) !! 0%nat = Some nan.
Proof.
  unfold pct_change.
  set (data := if pad then ffill (v :: vs) else v :: vs).
  assert (Hd : exists d ds, data = d :: ds).
  { subst data. destruct pad; simpl; eauto. }
  destruct Hd as (d & ds & ->).
  rewrite lookup_zip_with. simpl.
  rewrite F64Facts.div_nan_r, F64Facts.sub_nan_l. reflexivity.
Qed.

Lemma pct_change_all_missing (pad : bool) (vs : list float) :
  Forall (fun v => v = nan) vs -> Forall (fun v => v = nan) (pct_change pad vs).
Proof.
  intros H. unfold pct_change.
  set (data := if pad then ffill vs else vs).
  assert (Hd : Forall (fun v => v = nan) data).
  { subst data. destruct pad; [apply ffill_from_all_missing |]; exact H. }
  apply Forall_forall. intros z Hz.
  apply elem_of_zip_with in Hz as (x & y & -> & Hx & _).
  rewrite Forall_forall in Hd. rewrite (Hd x Hx).
  rewrite F64Facts.div_nan_l, F64Facts.sub_nan_l. reflexivity.
Qed.

Lemma all_nan_forallb (vs : list float) :
  forallb F64.isna vs = true <-> Forall (fun v => v = nan) vs.
Proof.
  induction vs as [| v vs IH]; simpl.
  - split; auto.
  - rewrite andb_true_iff, IH. split.
    + intros [Hv Hvs]. constructor; [apply F64Facts.isna_true, Hv | exact Hvs].
    + intros H. inversion H; subst. split; auto.
Qed.

(** A series without an observation fills its column with missing values. *)
Lemma reindex_all_missing (idx : list Z) (s : Series) :
  Forall (fun v => v = nan) (values s) -> Forall (fun v => v = nan) (reindex idx s).
Proof.
  intros H. unfold reindex. apply Forall_fmap, Forall_forall. intros t _.
  simpl. unfold value_at.
  destruct (find _ (rows s)) as [r |] eqn:Hf; [| reflexivity].
  apply find_some in Hf as [Hin _].
  rewrite Forall_forall in H. apply H. unfold values.
  apply list_elem_of_In, in_map, Hin.
Qed.

Lemma on_values_all_missing (f : list float -> list float) (s : Series) :
  Forall (fun v => v = nan) (f (values s)) ->
  Forall (fun v => v = nan) (values (on_values f s)).
Proof.
  intros H. unfold values at 1, on_values. simpl.
  rewrite Forall_forall in H. apply Forall_forall. intros v Hv.
  apply H. apply list_elem_of_In in Hv. apply list_elem_of_In.
  apply in_map_iff in Hv as ([t v'] & <- & Hin).
  apply in_combine_r in Hin. exact Hin.
Qed.

(** [squeeze] keeps every frame but the one of a single row. *)
Lemma squeeze_series (frame : Series) :
  one_row frame = false -> squeeze frame = AsSeries frame.
Proof.
  unfold one_row, squeeze.
  destruct (rows frame) as [| [t v] [| r rs]]; simpl; try reflexivity; discriminate.
Qed.

Lemma squeeze_scalar (frame : Series) :
  one_row frame = true -> exists v, squeeze frame = AsScalar v.
Proof.
  unfold one_row, squeeze.
  destruct (rows frame) as [| [t v] [| r rs]]; simpl; try discriminate. eauto.
Qed.

End PandasFacts.

(** ** Download and merge *)

Module DataMergeFacts.
Import Pandas DataMerge.

Section Facts.

Variable pad : bool.
Variable yahoo_close_month_end : string -> string -> string -> outcome Series.
Variable fred_month_end : string -> string -> string -> outcome Series.
Variables start end_ : string.
Variables ndx_me ffr gs10 cpi vix : Series.

Hypothesis yahoo_ndx : yahoo_close_month_end "^NDX" start end_ = Return ndx_me.
Hypothesis fred_ffr : fred_month_end "FEDFUNDS" start end_ = Return ffr.
Hypothesis fred_gs10 : fred_month_end "GS10" start end_ = Return gs10.
Hypothesis fred_cpi : fred_month_end "CPIAUCSL" start end_ = Return cpi.
Hypothesis fred_vix : fred_month_end "VIXCLS" start end_ = Return vix.

Abbreviation ndx_ret := (on_values (pct_change pad) ndx_me).

(** Once the providers have answered, and no FRED answer is squeezed to a
    bare number, the frame is built without any further check. *)
Lemma build_dataframe_returns :
  existsb one_row [ffr; gs10; cpi; vix] = false ->
  let idx := union_index [ndx_ret; ffr; gs10; cpi; vix] in
  build_dataframe pad yahoo_close_month_end fred_month_end start end_
  = Return {| index := idx;
              columns := [("ndx_ret", reindex idx ndx_ret);
                          ("ffr", reindex idx ffr);
                          ("gs10", reindex idx gs10);
                          ("cpi", reindex idx cpi);
                          ("vix", reindex idx vix)] |}.
Proof.
  simpl. intros H.
  apply orb_false_iff in H as [Hf H]. apply orb_false_iff in H as [Hg H].
  apply orb_false_iff in H as [Hc H]. apply orb_false_iff in H as [Hv _].
  unfold build_dataframe.
  rewrite yahoo_ndx, fred_ffr. simpl.
  rewrite (PandasFacts.squeeze_series ffr Hf). simpl.
  rewrite fred_gs10. simpl. rewrite (PandasFacts.squeeze_series gs10 Hg). simpl.
  rewrite fred_cpi. simpl. rewrite (PandasFacts.squeeze_series cpi Hc). simpl.
  rewrite fred_vix. simpl. rewrite (PandasFacts.squeeze_series vix Hv). simpl.
  reflexivity.
Qed.

(** A FRED answer of a single row is squeezed to a bare number, and naming
    it fails. *)
Lemma build_dataframe_one_row :
  existsb one_row [ffr; gs10; cpi; vix] = true ->
  build_dataframe pad yahoo_close_month_end fred_month_end start end_
  = Raise AttributeError.
Proof.
  simpl. intros H. unfold build_dataframe.
  rewrite yahoo_ndx, fred_ffr. simpl.
  destruct (one_row ffr) eqn:Hf.
  { destruct (PandasFacts.squeeze_scalar ffr Hf) as [v ->]. reflexivity. }
  rewrite (PandasFacts.squeeze_series ffr Hf). simpl. rewrite fred_gs10. simpl.
  destruct (one_row gs10) eqn:Hg.
  { destruct (PandasFacts.squeeze_scalar gs10 Hg) as [v ->]. reflexivity. }
  rewrite (PandasFacts.squeeze_series gs10 Hg). simpl. rewrite fred_cpi. simpl.
  destruct (one_row cpi) eqn:Hc.
  { destruct (PandasFacts.squeeze_scalar cpi Hc) as [v ->]. reflexivity. }
  rewrite (PandasFacts.squeeze_series cpi Hc). simpl. rewrite fred_vix. simpl.
  destruct (one_row vix) eqn:Hv; [| discriminate].
  destruct (PandasFacts.squeeze_scalar vix Hv) as [v ->]. reflexivity.
Qed.

(** A frame that is returned is the merged frame. *)
Lemma build_dataframe_frame (df : DataFrame) :
  build_dataframe pad yahoo_close_month_end fred_month_end start end_ = Return df ->
  existsb one_row [ffr; gs10; cpi; vix] = false /\
  df = {| index := union_index [ndx_ret; ffr; gs10; cpi; vix];
          columns :=
            [("ndx_ret", reindex (union_index [ndx_ret; ffr; gs10; cpi; vix]) ndx_ret);
             ("ffr", reindex (union_index [ndx_ret; ffr; gs10; cpi; vix]) ffr);
             ("gs10", reindex (union_index [ndx_ret; ffr; gs10; cpi; vix]) gs10);
             ("cpi", reindex (union_index [ndx_ret; ffr; gs10; cpi; vix]) cpi);
             ("vix", reindex (union_index [ndx_ret; ffr; gs10; cpi; vix]) vix)] |}.
Proof.
  intros H.
  destruct (existsb one_row [ffr; gs10; cpi; vix]) eqn:E.
  - rewrite (build_dataframe_one_row E) in H. discriminate.
  - rewrite (build_dataframe_returns E) in H. injection H as <-. auto.
Qed.

(** C7.  A frame that is returned has the columns [ndx_ret, ffr, gs10, cpi,
    vix] in that order, whatever names the providers gave the series, and
    the column at each place holds the series supplied at that place.  A
    frame is returned whenever the downloads return and no FRED answer has
    exactly one row. *)
Theorem build_dataframe_columns :
  (forall df,
     build_dataframe pad yahoo_close_month_end fred_month_end start end_ = Return df ->
     column_names df = ["ndx_ret"; "ffr"; "gs10"; "cpi"; "vix"] /\
     map snd (columns df)
     = map (reindex (index df)) [ndx_ret; ffr; gs10; cpi; vix]) /\
  (existsb one_row [ffr; gs10; cpi; vix] = false ->
   exists df,
     build_dataframe pad yahoo_close_month_end fred_month_end start end_ = Return df /\
     column_names df = ["ndx_ret"; "ffr"; "gs10"; "cpi"; "vix"] /\
     map snd (columns df)
     = map (reindex (index df)) [ndx_ret; ffr; gs10; cpi; vix]).
Proof.
  split.
  - intros df H. destruct (build_dataframe_frame df H) as [_ ->]. split; reflexivity.
  - intros H. eexists. split; [apply (build_dataframe_returns H) |]. split; reflexivity.
Qed.

(** C5, as amended.  No emptiness check is made.  Once the providers have
    answered, the merged five-column frame is returned, unless a FRED
    answer has exactly one row; a series that is empty or missing
    throughout becomes a column that is missing at every row.  A FRED
    answer of exactly one row is squeezed to a bare number and the call
    fails with [AttributeError] at the assignment of its name. *)
Theorem build_dataframe_keeps_empty_series :
  (existsb one_row [ffr; gs10; cpi; vix] = false ->
   exists df,
     build_dataframe pad yahoo_close_month_end fred_month_end start end_ = Return df /\
     column_names df = canonical_columns /\
     forall label s,
       In (label, s) [("ndx_ret", ndx_me); ("ffr", ffr); ("gs10", gs10);
                      ("cpi", cpi); ("vix", vix)] ->
       all_missing s = true ->
       exists col, getcol df label = Return col /\ forallb F64.isna col = true) /\
  (existsb one_row [ffr; gs10; cpi; vix] = true ->
   build_dataframe pad yahoo_close_month_end fred_month_end start end_
   = Raise AttributeError).
Proof.
  split; [| apply build_dataframe_one_row].
  intros Hrows.
  eexists. split; [apply (build_dataframe_returns Hrows) |]. split; [reflexivity |].
  intros label s Hin Hs. unfold all_missing in Hs.
  apply PandasFacts.all_nan_forallb in Hs.
  simpl in Hin.
  destruct Hin as [H | [H | [H | [H | [H | []]]]]]; injection H as <- <-;
    (eexists; split; [reflexivity |]);
    apply PandasFacts.all_nan_forallb, PandasFacts.reindex_all_missing; auto.
  apply PandasFacts.on_values_all_missing, PandasFacts.pct_change_all_missing, Hs.
Qed.

End Facts.

(** A frame is returned only when the five downloads returned and no FRED
    answer had a single row. *)
Lemma build_dataframe_answers (pad : bool)
  (yahoo_close_month_end fred_month_end : string -> string -> string -> outcome Series)
  (start end_ : string) (df : DataFrame) :
  build_dataframe pad yahoo_close_month_end fred_month_end start end_ = Return df ->
  exists ndx_me ffr gs10 cpi vix,
    yahoo_close_month_end "^NDX" start end_ = Return ndx_me /\
    fred_month_end "FEDFUNDS" start end_ = Return ffr /\
    fred_month_end "GS10" start end_ = Return gs10 /\
    fred_month_end "CPIAUCSL" start end_ = Return cpi /\
    fred_month_end "VIXCLS" start end_ = Return vix /\
    existsb one_row [ffr; gs10; cpi; vix] = false.
Proof.
  intros H.
  destruct (yahoo_close_month_end "^NDX" start end_) as [ndx | |] eqn:E1.
  2,3: unfold build_dataframe in H; rewrite E1 in H; discriminate.
  destruct (fred_month_end "FEDFUNDS" start end_) as [ffr | |] eqn:E2.
  2,3: unfold build_dataframe in H; rewrite E1, E2 in H; discriminate.
  destruct (one_row ffr) eqn:Hf.
  { unfold build_dataframe in H. rewrite E1, E2 in H. simpl in H.
    destruct (PandasFacts.squeeze_scalar ffr Hf) as [v Hv].
    rewrite Hv in H. discriminate. }
  destruct (fred_month_end "GS10" start end_) as [gs10 | |] eqn:E3.
  2,3: unfold build_dataframe in H; rewrite E1, E2 in H; simpl in H;
       rewrite (PandasFacts.squeeze_series ffr Hf) in H; simpl in H;
       rewrite E3 in H; discriminate.
  destruct (one_row gs10) eqn:Hg.
  { unfold build_dataframe in H. rewrite E1, E2 in H. simpl in H.
    rewrite (PandasFacts.squeeze_series ffr Hf) in H. simpl in H.
    rewrite E3 in H. simpl in H.
    destruct (PandasFacts.squeeze_scalar gs10 Hg) as [v Hv].
    rewrite Hv in H. discriminate. }
  destruct (fred_month_end "CPIAUCSL" start end_) as [cpi | |] eqn:E4.
  2,3: unfold build_dataframe in H; rewrite E1, E2 in H; simpl in H;
       rewrite (PandasFacts.squeeze_series ffr Hf) in H; simpl in H;
       rewrite E3 in H; simpl in H;
       rewrite (PandasFacts.squeeze_series gs10 Hg) in H; simpl in H;
       rewrite E4 in H; discriminate.
  destruct (fred_month_end "VIXCLS" start end_) as [vix | |] eqn:E5.
  2,3: unfold build_dataframe in H; rewrite E1, E2 in H; simpl in H;
       rewrite (PandasFacts.squeeze_series ffr Hf) in H; simpl in H;
       rewrite E3 in H; simpl in H;
       rewrite (PandasFacts.squeeze_series gs10 Hg) in H; simpl in H;
       rewrite E4 in H; simpl in H;
       destruct (squeeze cpi); simpl in H; try discriminate;
       rewrite E5 in H; discriminate.
  exists ndx, ffr, gs10, cpi, vix. repeat (split; [reflexivity |]).
  destruct (existsb one_row [ffr; gs10; cpi; vix]) eqn:E; [| reflexivity].
  rewrite (build_dataframe_one_row pad yahoo_close_month_end
             fred_month_end start end_ ndx ffr gs10 cpi vix E1 E2 E3 E4 E5 E) in H.
  discriminate.
Qed.

Lemma build_dataframe_columns_witness :
  (forall df,
     build_dataframe true sample_yahoo sample_fred "2020-01-01" "2024-04-30"
     = Return df ->
     column_names df = ["ndx_ret"; "ffr"; "gs10"; "cpi"; "vix"] /\
     map snd (columns df)
     = map (reindex (index df))
         [on_values (pct_change true)
            {| name := "Close"; rows := [(1, 100%float); (2, 150%float); (3, 75%float)] |};
          {| name := "FEDFUNDS"; rows := [(1, 1%float); (2, 2%float); (3, 4%float)] |};
          {| name := "GS10"; rows := [(1, 1%float); (2, 2%float); (3, 4%float)] |};
          {| name := "CPIAUCSL"; rows := [(1, 1%float); (2, 2%float); (3, 4%float)] |};
          {| name := "VIXCLS"; rows := [(1, 1%float); (2, 2%float); (3, 4%float)] |}]) /\
  (existsb one_row
     [{| name := "FEDFUNDS"; rows := [(1, 1%float); (2, 2%float); (3, 4%float)] |};
      {| name := "GS10"; rows := [(1, 1%float); (2, 2%float); (3, 4%float)] |};
      {| name := "CPIAUCSL"; rows := [(1, 1%float); (2, 2%float); (3, 4%float)] |};
      {| name := "VIXCLS"; rows := [(1, 1%float); (2, 2%float); (3, 4%float)] |}]
   = false ->
   exists df,
     build_dataframe true sample_yahoo sample_fred "2020-01-01" "2024-04-30"
     = Return df /\
     column_names df = ["ndx_ret"; "ffr"; "gs10"; "cpi"; "vix"] /\
     map snd (columns df)
     = map (reindex (index df))
         [on_values (pct_change true)
            {| name := "Close"; rows := [(1, 100%float); (2, 150%float); (3, 75%float)] |};
          {| name := "FEDFUNDS"; rows := [(1, 1%float); (2, 2%float); (3, 4%float)] |};
          {| name := "GS10"; rows := [(1, 1%float); (2, 2%float); (3, 4%float)] |};
          {| name := "CPIAUCSL"; rows := [(1, 1%float); (2, 2%float); (3, 4%float)] |};
          {| name := "VIXCLS"; rows := [(1, 1%float); (2, 2%float); (3, 4%float)] |}]).
Proof.
  apply (build_dataframe_columns true sample_yahoo sample_fred
           "2020-01-01" "2024-04-30"); reflexivity.
Defined.

Lemma build_dataframe_keeps_empty_series_witness :
  (existsb one_row
     [{| name := "FEDFUNDS"; rows := [(1, 1%float); (2, 2%float); (3, 4%float)] |};
      {| name := "GS10"; rows := [(1, 1%float); (2, 2%float); (3, 4%float)] |};
      {| name := "CPIAUCSL"; rows := [(1, 1%float); (2, 2%float); (3, 4%float)] |};
      {| name := "VIXCLS"; rows := [] |}] = false ->
   exists df,
     build_dataframe false sample_yahoo sample_fred_no_vix "2020-01-01" "2024-04-30"
     = Return df /\
     column_names df = canonical_columns /\
     forall label s,
       In (label, s)
         [("ndx_ret", {| name := "Close";
                         rows := [(1, 100%float); (2, 150%float); (3, 75%float)] |});
          ("ffr", {| name := "FEDFUNDS";
                     rows := [(1, 1%float); (2, 2%float); (3, 4%float)] |});
          ("gs10", {| name := "GS10";
                      rows := [(1, 1%float); (2, 2%float); (3, 4%float)] |});
          ("cpi", {| name := "CPIAUCSL";
                     rows := [(1, 1%float); (2, 2%float); (3, 4%float)] |});
          ("vix", {| name := "VIXCLS"; rows := [] |})] ->
       all_missing s = true ->
       exists col, getcol df label = Return col /\ forallb F64.isna col = true) /\
  (existsb one_row
     [{| name := "FEDFUNDS"; rows := [(1, 1%float); (2, 2%float); (3, 4%float)] |};
      {| name := "GS10"; rows := [(1, 1%float); (2, 2%float); (3, 4%float)] |};
      {| name := "CPIAUCSL"; rows := [(1, 1%float); (2, 2%float); (3, 4%float)] |};
      {| name := "VIXCLS"; rows := [] |}] = true ->
   build_dataframe false sample_yahoo sample_fred_no_vix "2020-01-01" "2024-04-30"
   = Raise AttributeError).
Proof.
  apply (build_dataframe_keeps_empty_series false sample_yahoo sample_fred_no_vix
           "2020-01-01" "2024-04-30"); reflexivity.
Defined.

(** C5 as stated fails: the VIX series arrives empty, and the call returns
    the merged frame, its [vix] column missing at every row, not an error. *)
Lemma build_dataframe_empty_vix_returns :
  sample_fred_no_vix "VIXCLS" "2020-01-01" "2024-04-30"
  = Return {| name := "VIXCLS"; rows := [] |} /\
  all_missing {| name := "VIXCLS"; rows := [] |} = true /\
  build_dataframe false sample_yahoo sample_fred_no_vix "2020-01-01" "2024-04-30"
  = Return {| index := [1; 2; 3];
              columns := [("ndx_ret", [nan; 0.5; -0.5]%float);
                          ("ffr", [1; 2; 4]%float);
                          ("gs10", [1; 2; 4]%float);
                          ("cpi", [1; 2; 4]%float);
                          ("vix", [nan; nan; nan])] |}.
Proof. repeat split; vm_compute; reflexivity. Qed.

(** A VIX answer of a single month: the call fails at the assignment of
    the name. *)
Example build_dataframe_one_row_vix :
  build_dataframe false sample_yahoo sample_fred_one_vix "2020-01-01" "2024-04-30"
  = Raise AttributeError.
Proof. vm_compute. reflexivity. Qed.

End DataMergeFacts.

(** ** The transforms and the FPE line of [main] *)

Module MainFacts.
Import Pandas Main.

(** With the five columns of [build_dataframe] in place, the four reads
    succeed and the four assignments append on the right. *)
Lemma add_derived_columns_returns (pad : bool) (df : DataFrame) :
  column_names df = DataMerge.canonical_columns ->
  exists ndx_ret ffr gs10 cpi vix,
    columns df = [("ndx_ret", ndx_ret); ("ffr", ffr); ("gs10", gs10);
                  ("cpi", cpi); ("vix", vix)] /\
    add_derived_columns pad df
    = Return {| index := index df;
                columns := (columns df ++
                  [("d_ffr", diff ffr); ("d_gs10", diff gs10);
                   ("inflation", map (fun x => x * 100)%float (pct_change pad cpi));
                   ("d_vix", diff vix)])%list |}.
Proof.
  destruct df as [idx cols]. unfold column_names. simpl. intros H.
  destruct cols as [| [c1 v1] [| [c2 v2] [| [c3 v3] [| [c4 v4] [| [c5 v5] [| ? ?]]]]]];
    try discriminate.
  simpl in H. injection H as -> -> -> -> ->.
  exists v1, v2, v3, v4, v5. split; reflexivity.
Qed.

(** C8.  The transforms of [main] return a frame with the same index, the
    old columns followed by the four new ones; each new column is computed
    from one old column, and every old column reads as before. *)
Theorem add_derived_columns_preserves (pad : bool) (df : DataFrame) :
  column_names df = DataMerge.canonical_columns ->
  exists df' ffr gs10 cpi vix,
    add_derived_columns pad df = Return df' /\
    index df' = index df /\
    column_names df' = (DataMerge.canonical_columns ++ derived_columns)%list /\
    (forall c, In c DataMerge.canonical_columns -> getcol df' c = getcol df c) /\
    getcol df "ffr" = Return ffr /\ getcol df' "d_ffr" = Return (diff ffr) /\
    getcol df "gs10" = Return gs10 /\ getcol df' "d_gs10" = Return (diff gs10) /\
    getcol df "cpi" = Return cpi /\
    getcol df' "inflation" = Return (map (fun x => x * 100)%float (pct_change pad cpi)) /\
    getcol df "vix" = Return vix /\ getcol df' "d_vix" = Return (diff vix).
Proof.
  intros Hc.
  destruct (add_derived_columns_returns pad df Hc)
    as (ndx_ret & ffr & gs10 & cpi & vix & Hcols & Hret).
  eexists. exists ffr, gs10, cpi, vix. split; [exact Hret |].
  unfold getcol, column_names. simpl. rewrite Hcols. simpl.
  repeat split; try reflexivity.
  intros c [<- | [<- | [<- | [<- | [<- | []]]]]]; reflexivity.
Qed.

Lemma add_derived_columns_preserves_witness :
  exists df' ffr gs10 cpi vix,
    add_derived_columns true sample_frame = Return df' /\
    index df' = index sample_frame /\
    column_names df' = (DataMerge.canonical_columns ++ derived_columns)%list /\
    (forall c, In c DataMerge.canonical_columns ->
               getcol df' c = getcol sample_frame c) /\
    getcol sample_frame "ffr" = Return ffr /\ getcol df' "d_ffr" = Return (diff ffr) /\
    getcol sample_frame "gs10" = Return gs10 /\
    getcol df' "d_gs10" = Return (diff gs10) /\
    getcol sample_frame "cpi" = Return cpi /\
    getcol df' "inflation" = Return (map (fun x => x * 100)%float (pct_change true cpi)) /\
    getcol sample_frame "vix" = Return vix /\ getcol df' "d_vix" = Return (diff vix).
Proof. apply (add_derived_columns_preserves true sample_frame). reflexivity. Defined.

(** C10, as amended.  The [inflation] column has one value per period.
    At a period whose predecessor is observed it is one hundred times the
    percent change of [cpi]; when [cpi] is missing at the period itself, a
    padding pandas (2.x) first puts the predecessor in its place, so that
    the value is [100 * (y / y - 1)], and a pandas that does not pad
    (3.x) gives a missing value.  At the first period it is missing. *)
Theorem inflation_is_scaled_pct_change (pad : bool) (df : DataFrame) :
  column_names df = DataMerge.canonical_columns ->
  exists df' cpi inflation,
    add_derived_columns pad df = Return df' /\
    getcol df "cpi" = Return cpi /\
    getcol df' "inflation" = Return inflation /\
    length inflation = length cpi /\
    (forall t x y,
       cpi !! t = Some y -> cpi !! S t = Some x -> F64.isna y = false ->
       inflation !! S t
       = Some (100 * ((if pad && F64.isna x then y else x) / y - 1))%float) /\
    (forall x, cpi !! 0%nat = Some x -> inflation !! 0%nat = Some nan).
Proof.
  intros Hc.
  destruct (add_derived_columns_returns pad df Hc)
    as (ndx_ret & ffr & gs10 & cpi & vix & Hcols & Hret).
  eexists. exists cpi, (map (fun x => x * 100)%float (pct_change pad cpi)).
  split; [exact Hret |].
  unfold getcol. simpl. rewrite Hcols. simpl.
  split; [reflexivity |]. split; [reflexivity |].
  split; [| split].
  - rewrite length_map. apply PandasFacts.length_pct_change.
  - intros t x y Hy Hx Hny.
    change (map (fun x => x * 100)%float (pct_change pad cpi))
      with ((fun x => x * 100)%float <$> pct_change pad cpi).
    rewrite list_lookup_fmap,
      (PandasFacts.pct_change_after_observed pad cpi t x y) by auto.
    simpl. rewrite F64Facts.mul_comm. reflexivity.
  - intros x Hx. destruct cpi as [| v vs]; [discriminate |].
    change (map (fun x => x * 100)%float (pct_change pad (v :: vs)))
      with ((fun x => x * 100)%float <$> pct_change pad (v :: vs)).
    rewrite list_lookup_fmap, PandasFacts.pct_change_first. reflexivity.
Qed.

Lemma inflation_is_scaled_pct_change_witness :
  exists df' cpi inflation,
    add_derived_columns true gap_frame = Return df' /\
    getcol gap_frame "cpi" = Return cpi /\
    getcol df' "inflation" = Return inflation /\
    length inflation = length cpi /\
    (forall t x y,
       cpi !! t = Some y -> cpi !! S t = Some x -> F64.isna y = false ->
       inflation !! S t
       = Some (100 * ((if true && F64.isna x then y else x) / y - 1))%float) /\
    (forall x, cpi !! 0%nat = Some x -> inflation !! 0%nat = Some nan).
Proof. apply (inflation_is_scaled_pct_change true gap_frame). reflexivity. Defined.

(** C10 as stated fails under a padding pandas: at the second period of
    [gap_frame] the predecessor 100 is observed and [cpi] is missing; the
    formula of the claim gives a missing value there, the column holds 0. *)
Lemma inflation_padded_gap :
  getcol gap_frame "cpi" = Return [100%float; nan; 75%float] /\
  (df' ← add_derived_columns true gap_frame; getcol df' "inflation")
  = Return [nan; 0%float; (-25)%float] /\
  (100 * (nan / 100 - 1))%float = nan /\
  F64.isna 0 = false /\ F64.isna nan = true.
Proof. repeat split; vm_compute; reflexivity. Qed.

(** Without padding the same period is missing. *)
Example inflation_unpadded_gap :
  (df' ← add_derived_columns false gap_frame; getcol df' "inflation")
  = Return [nan; nan; nan].
Proof. vm_compute. reflexivity. Qed.

(** The values on [sample_frame]: 100, 150, 75 give a missing first value,
    then +50 and -50 percent. *)
Example inflation_sample :
  (df' ← add_derived_columns false sample_frame; getcol df' "inflation")
  = Return [nan; 50; -50]%float.
Proof. vm_compute. reflexivity. Qed.

(** *** The FPE line *)

Lemma divide_nonzero (a b : Q) : ~ (b == 0)%Q -> divide a b = Return (a / b)%Q.
Proof.
  intros H. unfold divide. destruct (Qeq_bool b 0) eqn:E; [| reflexivity].
  apply Qeq_bool_eq in E. contradiction.
Qed.

Lemma inject_Z_nonzero (z : Z) : z <> 0 -> ~ (inject_Z z == 0)%Q.
Proof. intros H E. unfold Qeq in E. simpl in E. lia. Qed.

(** C3.  For a residual vector of length [n] and [k <> n] regressors, the
    FPE of the script, computed from the sum of squared residuals, and the
    FPE computed from the mean squared residual agree: they are the same
    rational number, and a number it is as soon as there is a residual. *)
Theorem fpe_paths_agree (resid : list Q) (k : Z) :
  let n := Z.of_nat (length resid) in
  n <> k ->
  agree (fpe (sum_squares resid) n k) (fpe_from_residuals resid k) /\
  (0 < n -> exists a, fpe (sum_squares resid) n k = Return a).
Proof.
  intros n Hk.
  assert (Hd0 : ~ (inject_Z (n - k) == 0)%Q) by (apply inject_Z_nonzero; lia).
  unfold fpe, fpe_from_residuals. fold n.
  destruct (Z.eq_dec n 0) as [Hn | Hn].
  - rewrite Hn. split; [reflexivity | lia].
  - assert (Hn0 : ~ (inject_Z n == 0)%Q) by (apply inject_Z_nonzero; lia).
    rewrite (divide_nonzero _ _ Hn0). simpl.
    rewrite !(divide_nonzero _ _ Hd0). simpl.
    split; [unfold Qdiv; ring | eexists; reflexivity].
Qed.

Lemma fpe_paths_agree_witness :
  5 <> 2 /\
  agree (fpe (sum_squares [1; 1; 1; 0; 0]%Q) 5 2)
        (fpe_from_residuals [1; 1; 1; 0; 0]%Q 2) /\
  (0 < 5 -> exists a, fpe (sum_squares [1; 1; 1; 0; 0]%Q) 5 2 = Return a).
Proof.
  split; [lia |]. apply (fpe_paths_agree [1; 1; 1; 0; 0]%Q 2). simpl. lia.
Defined.

(** On that vector both paths give 7/5. *)
Example fpe_sample :
  fpe (sum_squares [1; 1; 1; 0; 0]%Q) 5 2 = Return (21 # 15)%Q /\
  fpe_from_residuals [1; 1; 1; 0; 0]%Q 2 = Return (21 # 15)%Q.
Proof. split; reflexivity. Qed.

(** When [n = k] both paths stop at the division by [n - k]. *)
Example fpe_undefined :
  fpe 3 2 2 = Raise ZeroDivisionError /\
  fpe_from_residuals [1; 1]%Q 2 = Raise ZeroDivisionError.
Proof. split; reflexivity. Qed.

End MainFacts.

(** ** More on date validation *)

Module DatesMore.
Import Dates.

Section Facts.

Variable to_datetime : string -> string -> outcome datetime.

(** X1.  [validate_dates] returns exactly when pandas parses both strings
    without raising and the comparison [s >= e] is false; what it returns
    is then the pair of strings it was given, untouched. *)
Theorem validate_dates_returns_iff (start end_ : string) (p : string * string) :
  validate_dates to_datetime start end_ = Return p <->
  p = (start, end_) /\
  exists s e, to_datetime start DATE_FMT = Return s /\
              to_datetime end_ DATE_FMT = Return e /\ ge s e = false.
Proof.
  unfold validate_dates. split.
  - destruct (to_datetime start DATE_FMT) as [s | [] | c]; simpl; try discriminate.
    destruct (to_datetime end_ DATE_FMT) as [e | [] | c]; simpl; try discriminate.
    destruct (ge s e) eqn:Hge; [discriminate |].
    intros [= <-]. split; [reflexivity |]. exists s, e. auto.
  - intros (-> & s & e & Hs & He & Hge). rewrite Hs. simpl. rewrite He. simpl.
    rewrite Hge. reflexivity.
Qed.

(** X2.  When both strings parse to points on the time line, the pair is
    returned exactly when the start lies strictly before the end, and the
    run ends with [sys.exit(1)] exactly when it does not (equal dates
    included). *)
Theorem validate_dates_orders_timestamps (start end_ : string) (a b : Z) :
  to_datetime start DATE_FMT = Return (Timestamp a) ->
  to_datetime end_ DATE_FMT = Return (Timestamp b) ->
  (validate_dates to_datetime start end_ = Return (start, end_) <-> a < b) /\
  (validate_dates to_datetime start end_ = Exit 1 <-> b <= a).
Proof.
  intros Hs He. unfold validate_dates. rewrite Hs. simpl. rewrite He. simpl.
  destruct (Z.leb_spec b a); split; split; intros H'; try reflexivity;
    try discriminate; lia.
Qed.

(** X3.  A failure of the parser on either string decides the outcome: a
    [ValueError] ends the run with [sys.exit(1)], any other exception
    reaches the caller unchanged. *)
Theorem validate_dates_parser_failure (start end_ : string) (e : exn) :
  to_datetime start DATE_FMT = Raise e \/
  (exists s, to_datetime start DATE_FMT = Return s /\
             to_datetime end_ DATE_FMT = Raise e) ->
  validate_dates to_datetime start end_
  = match e with ValueError => Exit 1 | _ => Raise e end.
Proof.
  unfold validate_dates. intros [Hs | (s & Hs & He)].
  - rewrite Hs. simpl. destruct e; reflexivity.
  - rewrite Hs. simpl. rewrite He. simpl. destruct e; reflexivity.
Qed.

End Facts.

Lemma validate_dates_orders_timestamps_witness :
  (validate_dates to_datetime_ref "2020-01-01" "2024-04-30"
   = Return ("2020-01-01", "2024-04-30") <-> 751440 < 753050) /\
  (validate_dates to_datetime_ref "2020-01-01" "2024-04-30" = Exit 1
   <-> 753050 <= 751440).
Proof.
  apply (validate_dates_orders_timestamps to_datetime_ref
           "2020-01-01" "2024-04-30" 751440 753050);
    vm_compute; reflexivity.
Defined.

Lemma validate_dates_parser_failure_witness :
  validate_dates to_datetime_ref "2020-01-01" "30/04/2024" = Exit 1.
Proof.
  apply (validate_dates_parser_failure to_datetime_ref
           "2020-01-01" "30/04/2024" ValueError).
  right. eexists. split; vm_compute; reflexivity.
Defined.

End DatesMore.

(** ** Fetching one series *)

Module FetchFacts.
Import Pandas Fetch.

Lemma lower_char_idempotent (c : ascii) : lower_char (lower_char c) = lower_char c.
Proof. destruct c as [[] [] [] [] [] [] [] []]; reflexivity. Qed.

Lemma lower_idempotent (s : string) : lower (lower s) = lower s.
Proof.
  induction s as [| c s IH]; simpl; [reflexivity |].
  rewrite lower_char_idempotent, IH. reflexivity.
Qed.

Lemma combine_fst {A B : Type} (l : list A) (k : list B) :
  length l = length k -> map fst (combine l k) = l.
Proof.
  revert k. induction l as [| x l IH]; intros [| y k] H; simpl in *;
    try discriminate; [reflexivity |]. f_equal. apply IH. lia.
Qed.

Lemma combine_snd {A B : Type} (l : list A) (k : list B) :
  length l = length k -> map snd (combine l k) = k.
Proof.
  revert k. induction l as [| x l IH]; intros [| y k] H; simpl in *;
    try discriminate; [reflexivity |]. f_equal. apply IH. lia.
Qed.

(** A length-preserving operation on the values keeps the timestamps. *)
Lemma on_values_stamps (f : list float -> list float) (s : Series) :
  length (f (values s)) = length (values s) ->
  stamps (on_values f s) = stamps s /\ values (on_values f s) = f (values s).
Proof.
  intros H. unfold stamps at 1, values at 1, on_values. simpl.
  assert (Hl : length (stamps s) = length (f (values s))).
  { rewrite H. unfold stamps, values. rewrite !length_map. reflexivity. }
  split; [apply combine_fst | apply combine_snd]; exact Hl.
Qed.

Section Facts.

Variable pad : bool.
Variable yahoo_close : string -> string -> string -> string -> outcome Series.
Variable fred : string -> string -> string -> string -> outcome Series.


(** X4.  A series that [fetch_series] returns is named by the lower-cased
    symbol, whatever name the provider gave it, and that name has no
    upper-case letter left in it. *)
Theorem fetch_series_name (symbol source start end_ freq : string) (s : Series) :
  fetch_series pad yahoo_close fred symbol source start end_ freq = Return s ->
  name s = lower symbol /\ lower (name s) = name s.
Proof.
  unfold fetch_series. intros H.
  destruct (String.eqb source "yahoo").
  - destruct (yahoo_close symbol start end_ freq); simpl in H; try discriminate.
    injection H as <-. simpl. split; [reflexivity | apply lower_idempotent].
  - destruct (fred symbol start end_ freq) as [frame | |]; simpl in H;
      try discriminate.
    destruct (squeeze frame); simpl in H; try discriminate.
    injection H as <-. simpl. split; [reflexivity | apply lower_idempotent].
Qed.

(** X5.  The source is not validated: every source other than the exact
    string ["yahoo"] is read from FRED.  The observations the provider
    delivers are returned as they are, only renamed, unless the answer has
    exactly one row: that one is squeezed to a bare number, and the
    assignment of the name fails with [AttributeError], which is logged and
    raised again. *)
Theorem fetch_series_fred_passthrough
  (symbol source start end_ freq : string) (raw : Series) :
  source <> "yahoo" ->
  fred symbol start end_ freq = Return raw ->
  fetch_series pad yahoo_close fred symbol source start end_ freq
  = if one_row raw then Raise AttributeError
    else Return {| name := lower symbol; rows := rows raw |}.
Proof.
  intros Hsrc Hraw. unfold fetch_series.
  destruct (String.eqb_spec source "yahoo") as [-> | _]; [contradiction |].
  rewrite Hraw. simpl.
  destruct (one_row raw) eqn:Hrow.
  - destruct (PandasFacts.squeeze_scalar raw Hrow) as [v ->]. reflexivity.
  - rewrite (PandasFacts.squeeze_series raw Hrow). reflexivity.
Qed.

(** X6.  From Yahoo the function returns returns, not prices: the series
    has the timestamps of the month-end closes, its values are their
    percent changes, and the value at the first timestamp is missing. *)
Theorem fetch_series_yahoo_returns (symbol start end_ freq : string) (close : Series) :
  yahoo_close symbol start end_ freq = Return close ->
  exists s,
    fetch_series pad yahoo_close fred symbol "yahoo" start end_ freq = Return s /\
    stamps s = stamps close /\
    values s = pct_change pad (values close) /\
    (forall t v, rows close !! 0%nat = Some (t, v) -> rows s !! 0%nat = Some (t, nan)).
Proof.
  intros Hc. unfold fetch_series. simpl. rewrite Hc. simpl.
  eexists. split; [reflexivity |].
  destruct (on_values_stamps (pct_change pad) close
              (PandasFacts.length_pct_change pad (values close))) as [Hst Hv].
  split; [exact Hst |]. split; [exact Hv |].
  intros t v H0. simpl. unfold stamps, values.
  destruct (rows close) as [| [t0 v0] rs]; [discriminate |].
  injection H0 as -> ->. simpl.
  pose proof (PandasFacts.pct_change_first pad v (map snd rs)) as Hf.
  destruct (pct_change pad (v :: map snd rs)) as [| p ps]; [discriminate |].
  injection Hf as ->. reflexivity.
Qed.

(** A failure of the provider that is asked is the failure of
    [fetch_series]: the exception is logged and raised again. *)
Lemma fetch_series_failure (symbol source start end_ freq : string) (e : exn) :
  (if String.eqb source "yahoo"
   then yahoo_close symbol start end_ freq
   else fred symbol start end_ freq) = Raise e ->
  fetch_series pad yahoo_close fred symbol source start end_ freq = Raise e.
Proof.
  unfold fetch_series. destruct (String.eqb source "yahoo"); intros ->; reflexivity.
Qed.

End Facts.

Lemma fetch_series_name_witness :
  name {| name := "^ndx";
          rows := [(1, nan); (2, 0.5%float); (3, (-0.5)%float)] |} = lower "^NDX" /\
  lower (name {| name := "^ndx";
                 rows := [(1, nan); (2, 0.5%float); (3, (-0.5)%float)] |})
  = name {| name := "^ndx";
            rows := [(1, nan); (2, 0.5%float); (3, (-0.5)%float)] |}.
Proof.
  apply (fetch_series_name true sample_yahoo_close sample_fred_series
           "^NDX" "yahoo" "2020-01-01" "2024-04-30" "ME").
  vm_compute. reflexivity.
Defined.

Lemma fetch_series_fred_passthrough_witness :
  fetch_series true sample_yahoo_close sample_fred_series
    "FEDFUNDS" "Yahoo" "2020-01-01" "2024-04-30" "ME"
  = if one_row {| name := "FEDFUNDS";
                  rows := [(1, 1%float); (2, 2%float); (3, 4%float)] |}
    then Raise AttributeError
    else Return {| name := lower "FEDFUNDS";
                   rows := rows {| name := "FEDFUNDS";
                                   rows := [(1, 1%float); (2, 2%float);
                                            (3, 4%float)] |} |}.
Proof.
  apply (fetch_series_fred_passthrough true sample_yahoo_close sample_fred_series
           "FEDFUNDS" "Yahoo" "2020-01-01" "2024-04-30" "ME").
  - discriminate.
  - reflexivity.
Defined.

(** The two cases on sample answers: three rows come back renamed, a single
    row fails. *)
Example fetch_series_fred_samples :
  fetch_series true sample_yahoo_close sample_fred_series
    "FEDFUNDS" "fred" "2020-01-01" "2024-04-30" "ME"
  = Return {| name := "fedfunds"; rows := [(1, 1%float); (2, 2%float); (3, 4%float)] |} /\
  fetch_series true sample_yahoo_close sample_fred_one_row
    "FEDFUNDS" "fred" "2020-01-01" "2024-04-30" "ME"
  = Raise AttributeError.
Proof. split; vm_compute; reflexivity. Qed.

Lemma fetch_series_yahoo_returns_witness :
  exists s,
    fetch_series false sample_yahoo_close sample_fred_series
      "^NDX" "yahoo" "2020-01-01" "2024-04-30" "ME" = Return s /\
    stamps s = stamps {| name := "Close";
                         rows := [(1, 100%float); (2, 150%float); (3, 75%float)] |} /\
    values s = pct_change false
                 (values {| name := "Close";
                            rows := [(1, 100%float); (2, 150%float); (3, 75%float)] |}) /\
    (forall t v,
       rows {| name := "Close";
               rows := [(1, 100%float); (2, 150%float); (3, 75%float)] |} !! 0%nat
       = Some (t, v) -> rows s !! 0%nat = Some (t, nan)).
Proof.
  apply (fetch_series_yahoo_returns false sample_yahoo_close sample_fred_series
           "^NDX" "2020-01-01" "2024-04-30" "ME").
  reflexivity.
Defined.

End FetchFacts.

(** ** More on lag selection *)

Module LagMore.
Import LagSelection.

Lemma map_seq_shift (n : nat) : forall (a : Z) (s : nat),
  map (fun i : nat => a + Z.of_nat i) (seq s n)
  = map (fun i : nat => a + Z.of_nat s + Z.of_nat i) (seq 0 n).
Proof.
  induction n as [| n IH]; intros a s; [reflexivity |].
  simpl. f_equal; [lia |].
  rewrite (IH a (S s)), (IH (a + Z.of_nat s) 1%nat). apply map_ext. intros i. lia.
Qed.

Lemma range_app (a m b : Z) : a <= m <= b -> range a b = (range a m ++ range m b)%list.
Proof.
  intros H. unfold range.
  replace (Z.to_nat (b - a)) with (Z.to_nat (m - a) + Z.to_nat (b - m))%nat by lia.
  rewrite seq_app, map_app. f_equal. simpl.
  rewrite map_seq_shift. apply map_ext. intros i. lia.
Qed.

Lemma range_cons (m b : Z) : m < b -> range m b = m :: range (m + 1) b.
Proof.
  intros H. rewrite (range_app m (m + 1) b) by lia.
  unfold range at 1. replace (Z.to_nat (m + 1 - m)) with 1%nat by lia.
  simpl. f_equal. lia.
Qed.

Lemma in_range_Z (max_lag L : Z) : In L (range 1 (max_lag + 1)) <-> 1 <= L <= max_lag.
Proof.
  unfold range. rewrite in_map_iff. split.
  - intros (i & <- & Hi). apply in_seq in Hi. lia.
  - intros H. exists (Z.to_nat (L - 1)). split; [lia |]. apply in_seq. lia.
Qed.

Lemma fold_pick_ext (val1 val2 : Z -> option float) (l : list Z) :
  (forall L, In L l -> val1 L = val2 L) ->
  forall acc, fold_left (pick val1) l acc = fold_left (pick val2) l acc.
Proof.
  induction l as [| L l IH]; intros H acc; [reflexivity |].
  simpl. unfold pick at 2 4. rewrite (H L) by (left; reflexivity).
  apply IH. intros L' HL'. apply H. right. exact HL'.
Qed.

Lemma lt_not_nan (v w : float) : F64.lt v w = true -> F64.isna v = false.
Proof.
  unfold F64.lt, F64.isna, is_nan. rewrite ltb_spec, FloatAxioms.eqb_spec.
  destruct (Prim2SF v) as [[] | [] | | [] m e]; simpl; try discriminate;
    intros _; try reflexivity;
    unfold SFeqb, SFcompare; rewrite Z.compare_refl, Pos.compare_cont_refl;
    reflexivity.
Qed.

Abbreviation keys := ({[ "aic"; "bic"; "fpe" ]} : gset string).

Lemma update_dom (key : string) (v : float) (lag : Z) (st st' : lag_state) :
  dom st.1 = keys -> dom st.2 = keys ->
  update key v lag st = Return st' ->
  dom st'.1 = keys /\ dom st'.2 = keys.
Proof.
  intros H1 H2. unfold update, getitem.
  destruct (st.1 !! key) as [cur |] eqn:Hk; simpl; [| discriminate].
  assert (Hin : key ∈ keys).
  { rewrite <- H1. apply elem_of_dom. eexists. exact Hk. }
  destruct (F64.lt v cur); intros [= <-]; simpl; [| auto].
  rewrite !dom_insert_L, H1, H2.
  apply singleton_subseteq_l in Hin.
  split; apply subseteq_union_1_L; exact Hin.
Qed.

Section Facts.

Context {Endog Exog : Type}.
Variable fit_lagged : Endog -> Exog -> Z -> outcome OLSResults.
Variable endog : Endog.
Variable exog : Exog.

Abbreviation criterion := (criterion fit_lagged endog exog).
Abbreviation body := (body fit_lagged endog exog).
Abbreviation fits L := (exists mdl, fit_lagged endog exog L = Return mdl).

(** Each entry of the result is the lag held by the accumulator of its
    criterion after the whole grid. *)
Lemma select_fold (max_lag : Z) :
  (forall L, 1 <= L <= max_lag -> fits L) ->
  exists r, select_lag_length fit_lagged endog exog max_lag = Return r /\
    forall key, In key criteria ->
      r !! key = Some (fold_left (pick (criterion key)) (range 1 (max_lag + 1))
                         (infinity, None)).2.
Proof.
  intros Hfits.
  destruct (LagFacts.loop_tracks fit_lagged endog exog (range 1 (max_lag + 1))
              _ _ _ _ LagFacts.initial_tracks) as (st & Hloop & Ha & Hb & Hf).
  { apply List.Forall_forall. intros L HL. apply in_range_Z in HL. auto. }
  exists st.2. split.
  - unfold select_lag_length. rewrite Hloop. reflexivity.
  - intros key [<- | [<- | [<- | []]]];
      match goal with
      | H : view ?k st = Some ?acc |- st.2 !! ?k = _ =>
          apply LagFacts.view_parts in H; apply H
      end.
Qed.

(** X7.  The loop has no handler: when the fits succeed up to a lag of the
    grid and the fit at that lag raises, the call raises that exception and
    no mapping is returned. *)
Theorem select_lag_length_raises (max_lag L0 : Z) (e : exn) :
  1 <= L0 <= max_lag ->
  (forall L, 1 <= L < L0 -> fits L) ->
  fit_lagged endog exog L0 = Raise e ->
  select_lag_length fit_lagged endog exog max_lag = Raise e.
Proof.
  intros HL0 Hfits Hfail. unfold select_lag_length.
  rewrite (range_app 1 L0 (max_lag + 1)) by lia.
  rewrite (range_cons L0 (max_lag + 1)) by lia.
  rewrite for_each_app.
  destruct (LagFacts.loop_tracks fit_lagged endog exog (range 1 L0)
              _ _ _ _ LagFacts.initial_tracks) as (st & Hloop & _).
  { apply List.Forall_forall. intros L HL.
    replace L0 with (L0 - 1 + 1) in HL by lia.
    apply in_range_Z in HL. apply Hfits. lia. }
  rewrite Hloop. simpl. unfold LagSelection.body. rewrite Hfail. reflexivity.
Qed.

(** X8.  One more lag in the grid changes an entry in one way only: the
    entry for [max_lag + 1] is the entry for [max_lag], or it is the new
    lag [max_lag + 1]. *)
Theorem select_lag_length_extend (max_lag : Z) :
  0 <= max_lag ->
  (forall L, 1 <= L <= max_lag + 1 -> fits L) ->
  exists r r',
    select_lag_length fit_lagged endog exog max_lag = Return r /\
    select_lag_length fit_lagged endog exog (max_lag + 1) = Return r' /\
    forall key, In key criteria ->
      r' !! key = r !! key \/ r' !! key = Some (Some (max_lag + 1)).
Proof.
  intros Hmax Hfits.
  destruct (select_fold max_lag) as (r & Hr & Hkeys);
    [intros L HL; apply Hfits; lia |].
  destruct (select_fold (max_lag + 1) Hfits) as (r' & Hr' & Hkeys').
  exists r, r'. split; [exact Hr |]. split; [exact Hr' |].
  intros key Hkey. rewrite (Hkeys' key Hkey), (Hkeys key Hkey).
  rewrite (range_app 1 (max_lag + 1) (max_lag + 1 + 1)) by lia.
  rewrite (range_cons (max_lag + 1)) by lia.
  rewrite (range_empty (max_lag + 1 + 1)) by lia.
  rewrite fold_left_app. simpl.
  set (acc := fold_left (pick (criterion key)) (range 1 (max_lag + 1))
                (infinity, None)).
  unfold pick.
  destruct (criterion key (max_lag + 1)) as [v |]; [| left; reflexivity].
  destruct (F64.lt v acc.1); [right | left]; reflexivity.
Qed.

(** X10.  A lag that is returned for a criterion has a value of that
    criterion strictly below plus infinity; a lag whose value is NaN or
    plus infinity is never chosen. *)
Theorem select_lag_length_chooses_finite (max_lag : Z) :
  (forall L, 1 <= L <= max_lag -> fits L) ->
  exists r, select_lag_length fit_lagged endog exog max_lag = Return r /\
    forall key L, In key criteria -> r !! key = Some (Some L) ->
      exists v, criterion key L = Some v /\
                F64.lt v infinity = true /\ F64.isna v = false.
Proof.
  intros Hfits.
  destruct (LagFacts.select_returns fit_lagged endog exog max_lag Hfits)
    as (r & Hr & Hkeys).
  exists r. split; [exact Hr |]. intros key L Hkey HL.
  destruct (Hkeys key Hkey) as ([b l] & Hl & [_ Hsome _ _]).
  simpl in *. rewrite Hl in HL. injection HL as ->.
  destruct (Hsome L eq_refl) as (_ & Hv & Hinf).
  exists b. split; [exact Hv |]. split; [exact Hinf |].
  eapply lt_not_nan. exact Hinf.
Qed.

Lemma body_dom (st st' : lag_state) (lag : Z) :
  dom st.1 = keys -> dom st.2 = keys ->
  body st lag = Return st' ->
  dom st'.1 = keys /\ dom st'.2 = keys.
Proof.
  intros H1 H2. unfold LagSelection.body.
  destruct (fit_lagged endog exog lag) as [mdl | |]; simpl; try discriminate.
  destruct (update "aic" (aic mdl) lag st) as [st1 | |] eqn:E1; simpl; try discriminate.
  destruct (update_dom _ _ _ _ _ H1 H2 E1) as [H11 H12].
  destruct (update "bic" (bic mdl) lag st1) as [st2 | |] eqn:E2; simpl; try discriminate.
  destruct (update_dom _ _ _ _ _ H11 H12 E2) as [H21 H22].
  destruct (fpe mdl) as [v |].
  - intros E3. exact (update_dom _ _ _ _ _ H21 H22 E3).
  - intros [= <-]. auto.
Qed.

Lemma loop_dom (ls : list Z) : forall st st',
  dom st.1 = keys -> dom st.2 = keys ->
  for_each body ls st = Return st' ->
  dom st'.1 = keys /\ dom st'.2 = keys.
Proof.
  induction ls as [| L ls IH]; intros st st' H1 H2; simpl.
  - intros [= <-]. auto.
  - destruct (body st L) as [st1 | |] eqn:E; simpl; try discriminate.
    destruct (body_dom st st1 L H1 H2 E) as [H11 H12].
    apply IH; assumption.
Qed.

(** X11.  Whatever the fits deliver, a mapping that is returned has the
    keys ["aic"], ["bic"] and ["fpe"], and no other key. *)
Theorem select_lag_length_keys (max_lag : Z) (r : gmap string (option Z)) :
  select_lag_length fit_lagged endog exog max_lag = Return r ->
  dom r = ({[ "aic"; "bic"; "fpe" ]} : gset string).
Proof.
  unfold select_lag_length.
  destruct (for_each body (range 1 (max_lag + 1)) (best0, best_lag0))
    as [st | |] eqn:E; simpl; try discriminate.
  intros [= <-].
  apply (loop_dom (range 1 (max_lag + 1)) (best0, best_lag0) st); [| | exact E];
    unfold best0, best_lag0; simpl; rewrite !dom_insert_L, dom_singleton_L;
    apply (assoc_L (∪)).
Qed.

End Facts.

(** X9.  The criteria are selected independently: two fits that offer the
    same values of one criterion over the grid get the same entry for that
    criterion, however they differ on the other two. *)
Theorem select_lag_length_independent {Endog Exog : Type}
  (fit1 fit2 : Endog -> Exog -> Z -> outcome OLSResults)
  (endog : Endog) (exog : Exog) (max_lag : Z) (key : string) :
  In key criteria ->
  (forall L, 1 <= L <= max_lag ->
     (exists mdl, fit1 endog exog L = Return mdl) /\
     (exists mdl, fit2 endog exog L = Return mdl) /\
     LagSelection.criterion fit1 endog exog key L
     = LagSelection.criterion fit2 endog exog key L) ->
  exists r1 r2,
    select_lag_length fit1 endog exog max_lag = Return r1 /\
    select_lag_length fit2 endog exog max_lag = Return r2 /\
    r1 !! key = r2 !! key.
Proof.
  intros Hkey H.
  destruct (select_fold fit1 endog exog max_lag) as (r1 & Hr1 & Hk1);
    [intros L HL; apply (H L HL) |].
  destruct (select_fold fit2 endog exog max_lag) as (r2 & Hr2 & Hk2);
    [intros L HL; apply (H L HL) |].
  exists r1, r2. split; [exact Hr1 |]. split; [exact Hr2 |].
  rewrite (Hk1 key Hkey), (Hk2 key Hkey). do 2 f_equal.
  apply fold_pick_ext. intros L HL. apply in_range_Z in HL. apply (H L HL).
Qed.

Lemma select_lag_length_raises_witness :
  select_lag_length fit_failing tt tt 3 = Raise (OtherError "LinAlgError").
Proof.
  apply (select_lag_length_raises fit_failing tt tt 3 1 (OtherError "LinAlgError")).
  - lia.
  - intros L HL. lia.
  - reflexivity.
Defined.

Lemma select_lag_length_extend_witness :
  exists r r',
    select_lag_length fit_with_fpe tt tt 2 = Return r /\
    select_lag_length fit_with_fpe tt tt (2 + 1) = Return r' /\
    forall key, In key criteria ->
      r' !! key = r !! key \/ r' !! key = Some (Some (2 + 1)).
Proof.
  apply (select_lag_length_extend fit_with_fpe tt tt 2); [lia |].
  intros L _. eexists. reflexivity.
Defined.

Lemma select_lag_length_chooses_finite_witness :
  exists r, select_lag_length fit_with_fpe tt tt 3 = Return r /\
    forall key L, In key criteria -> r !! key = Some (Some L) ->
      exists v, LagSelection.criterion fit_with_fpe tt tt key L = Some v /\
                F64.lt v infinity = true /\ F64.isna v = false.
Proof.
  apply (select_lag_length_chooses_finite fit_with_fpe tt tt 3).
  intros L _. eexists. reflexivity.
Defined.

Lemma select_lag_length_keys_witness :
  dom ({[ "aic" := Some 2; "bic" := Some 1; "fpe" := None ]} : gmap string (option Z))
  = ({[ "aic"; "bic"; "fpe" ]} : gset string).
Proof.
  apply (select_lag_length_keys fit_plain tt tt 3). vm_compute. reflexivity.
Defined.

Lemma select_lag_length_independent_witness :
  exists r1 r2,
    select_lag_length fit_plain tt tt 3 = Return r1 /\
    select_lag_length fit_with_fpe tt tt 3 = Return r2 /\
    r1 !! "aic" = r2 !! "aic".
Proof.
  apply (select_lag_length_independent fit_plain fit_with_fpe tt tt 3 "aic").
  - left. reflexivity.
  - intros L _. split; [eexists; reflexivity |]. split; [eexists; reflexivity |].
    reflexivity.
Defined.

End LagMore.

(** ** More on stationarity testing *)

Module StationarityMore.
Import Pandas Stationarity.

Lemma dropna_all_missing (s : Series) :
  DataMerge.all_missing s = true -> dropna s = {| name := name s; rows := [] |}.
Proof.
  unfold DataMerge.all_missing, values, dropna. intros H. f_equal.
  induction (rows s) as [| r rs IH]; [reflexivity |].
  simpl in *. apply andb_true_iff in H as [Hr Hrs].
  rewrite Hr. simpl. apply IH, Hrs.
Qed.

Section Facts.

Variable adfuller : Series -> outcome ADFResult.

(** X12.  On a series that is empty or missing at every row nothing is
    left after [dropna]: [adf_test] asks [adfuller] for the test of a
    series without observations, and its outcome is the outcome of that
    call. *)
Theorem adf_test_all_missing (series : Series) (label : string) :
  DataMerge.all_missing series = true ->
  dropna series = {| name := name series; rows := [] |} /\
  adf_test adfuller series label
  = adf_test adfuller {| name := name series; rows := [] |} label.
Proof.
  intros H. pose proof (dropna_all_missing series H) as Hd.
  split; [exact Hd |]. unfold adf_test. rewrite Hd. reflexivity.
Qed.

(** X13.  When [adfuller] returns, [adf_test] returns the same result
    unchanged, provided the result carries the critical values ["1%"],
    ["5%"] and ["10%"] that the log line reads; if one of them is absent
    the call raises [KeyError] although the test was computed. *)
Theorem adf_test_result (series : Series) (label : string) (r : ADFResult) :
  adfuller (dropna series) = Return r ->
  adf_test adfuller series label
  = if bool_decide (is_Some (crit_vals r !! "1%") /\
                    is_Some (crit_vals r !! "5%") /\
                    is_Some (crit_vals r !! "10%"))
    then Return r else Raise KeyError.
Proof.
  intros H. unfold adf_test, getitem. rewrite H. simpl.
  case_bool_decide as Hd.
  - destruct Hd as ([c1 E1] & [c5 E5] & [c10 E10]).
    rewrite E1. simpl. rewrite E5. simpl. rewrite E10. reflexivity.
  - destruct (crit_vals r !! "1%") as [c1 |] eqn:E1; [| reflexivity].
    destruct (crit_vals r !! "5%") as [c5 |] eqn:E5; [| reflexivity].
    destruct (crit_vals r !! "10%") as [c10 |] eqn:E10; [| reflexivity].
    exfalso. apply Hd. repeat split; eexists; reflexivity.
Qed.

End Facts.

Lemma adf_test_all_missing_witness :
  dropna {| name := "vix"; rows := [(1, nan); (2, nan)] |}
  = {| name := name {| name := "vix"; rows := [(1, nan); (2, nan)] |}; rows := [] |} /\
  adf_test adfuller_strict {| name := "vix"; rows := [(1, nan); (2, nan)] |} "vix"
  = adf_test adfuller_strict
      {| name := name {| name := "vix"; rows := [(1, nan); (2, nan)] |}; rows := [] |}
      "vix".
Proof.
  apply (adf_test_all_missing adfuller_strict
           {| name := "vix"; rows := [(1, nan); (2, nan)] |} "vix").
  reflexivity.
Defined.

Lemma adf_test_result_witness :
  adf_test adfuller_strict gappy_series "ffr"
  = if bool_decide
         (is_Some (crit_vals {| stat := 0; pvalue := 1; usedlag := 0; nobs := 11;
                                crit_vals := {[ "1%" := 0%float; "5%" := 0%float;
                                                "10%" := 0%float ]};
                                icbest := 0 |} !! "1%") /\
          is_Some (crit_vals {| stat := 0; pvalue := 1; usedlag := 0; nobs := 11;
                                crit_vals := {[ "1%" := 0%float; "5%" := 0%float;
                                                "10%" := 0%float ]};
                                icbest := 0 |} !! "5%") /\
          is_Some (crit_vals {| stat := 0; pvalue := 1; usedlag := 0; nobs := 11;
                                crit_vals := {[ "1%" := 0%float; "5%" := 0%float;
                                                "10%" := 0%float ]};
                                icbest := 0 |} !! "10%"))
    then Return {| stat := 0; pvalue := 1; usedlag := 0; nobs := 11;
                   crit_vals := {[ "1%" := 0%float; "5%" := 0%float;
                                   "10%" := 0%float ]};
                   icbest := 0 |}
    else Raise KeyError.
Proof.
  apply (adf_test_result adfuller_strict gappy_series "ffr").
  vm_compute. reflexivity.
Defined.

End StationarityMore.

(** ** More on the merged frame *)

Module DataMergeMore.
Import Pandas DataMerge.

Lemma insert_stamp_in (t u : Z) (l : list Z) :
  In u (insert_stamp t l) <-> u = t \/ In u l.
Proof.
  induction l as [| x l IH]; simpl; [intuition |].
  destruct (Z.ltb_spec t x); simpl; [intuition |].
  destruct (Z.eqb_spec t x); simpl; [subst; intuition |].
  rewrite IH. intuition.
Qed.

Lemma insert_stamp_sorted (t : Z) (l : list Z) :
  StronglySorted Z.lt l -> StronglySorted Z.lt (insert_stamp t l).
Proof.
  induction 1 as [| x l Hl IH Hx]; simpl.
  - repeat constructor.
  - destruct (Z.ltb_spec t x).
    + constructor; [constructor; assumption |].
      constructor; [assumption |].
      rewrite List.Forall_forall in Hx |- *. intros y Hy. specialize (Hx y Hy). lia.
    + destruct (Z.eqb_spec t x); [constructor; assumption |].
      constructor; [exact IH |].
      rewrite List.Forall_forall in Hx |- *. intros y Hy.
      apply insert_stamp_in in Hy as [-> | Hy]; [lia | auto].
Qed.

Lemma union_index_sorted (ss : list Series) : StronglySorted Z.lt (union_index ss).
Proof.
  unfold union_index. induction (List.concat (map stamps ss)) as [| t l IH]; simpl.
  - constructor.
  - apply insert_stamp_sorted, IH.
Qed.

Lemma union_index_in (ss : list Series) (t : Z) :
  In t (union_index ss) <-> exists s, In s ss /\ In t (stamps s).
Proof.
  unfold union_index.
  assert (H : forall l, In t (foldr insert_stamp [] l) <-> In t l).
  { induction l as [| x l IH]; simpl; [reflexivity |].
    rewrite insert_stamp_in, IH. intuition. }
  rewrite H, in_concat. split.
  - intros (l & Hl & Ht). apply in_map_iff in Hl as (s & <- & Hs). eauto.
  - intros (s & Hs & Ht). exists (stamps s). split; [apply in_map, Hs | exact Ht].
Qed.

(** With timestamps that do not repeat, a series is read back at each of
    its timestamps. *)
Lemma value_at_row (s : Series) (t : Z) (v : float) :
  NoDup (stamps s) -> In (t, v) (rows s) -> value_at s t = v.
Proof.
  unfold stamps, value_at. induction (rows s) as [| [t0 v0] rs IH]; simpl;
    intros Hnd Hin; [contradiction |].
  apply NoDup_cons in Hnd as [Hnot Hnd].
  destruct Hin as [[= -> ->] | Hin].
  - rewrite Z.eqb_refl. reflexivity.
  - destruct (Z.eqb_spec t0 t) as [-> | Hne].
    + exfalso. apply Hnot. apply list_elem_of_In.
      change t with (fst (t, v)). apply in_map, Hin.
    + apply IH; assumption.
Qed.

Lemma value_at_absent (s : Series) (t : Z) : ~ In t (stamps s) -> value_at s t = nan.
Proof.
  unfold stamps, value_at. induction (rows s) as [| [t0 v0] rs IH]; simpl;
    intros Hnot; [reflexivity |].
  destruct (Z.eqb_spec t0 t) as [-> | Hne]; [exfalso; apply Hnot; left; reflexivity |].
  apply IH. intros H. apply Hnot. right. exact H.
Qed.

Section Facts.

Variable pad : bool.
Variable yahoo_close_month_end : string -> string -> string -> outcome Series.
Variable fred_month_end : string -> string -> string -> outcome Series.
Variables start end_ : string.

(** X14.  A frame is returned exactly when all five downloads return (the
    close of ^NDX from Yahoo and FEDFUNDS, GS10, CPIAUCSL and VIXCLS from
    FRED) and none of the four FRED answers has exactly one row.  No other
    condition is checked. *)
Theorem build_dataframe_returns_iff :
  (exists df,
     build_dataframe pad yahoo_close_month_end fred_month_end start end_
     = Return df) <->
  (exists ndx_me ffr gs10 cpi vix,
     yahoo_close_month_end "^NDX" start end_ = Return ndx_me /\
     fred_month_end "FEDFUNDS" start end_ = Return ffr /\
     fred_month_end "GS10" start end_ = Return gs10 /\
     fred_month_end "CPIAUCSL" start end_ = Return cpi /\
     fred_month_end "VIXCLS" start end_ = Return vix /\
     existsb one_row [ffr; gs10; cpi; vix] = false).
Proof.
  split.
  - intros [df H].
    apply (DataMergeFacts.build_dataframe_answers pad yahoo_close_month_end
             fred_month_end start end_ df H).
  - intros (ndx & ffr & gs10 & cpi & vix & H1 & H2 & H3 & H4 & H5 & Hrows).
    eexists.
    apply (DataMergeFacts.build_dataframe_returns pad yahoo_close_month_end
             fred_month_end start end_ ndx ffr gs10 cpi vix H1 H2 H3 H4 H5 Hrows).
Qed.

Variables ndx_me ffr gs10 cpi vix : Series.

Hypothesis yahoo_ndx : yahoo_close_month_end "^NDX" start end_ = Return ndx_me.
Hypothesis fred_ffr : fred_month_end "FEDFUNDS" start end_ = Return ffr.
Hypothesis fred_gs10 : fred_month_end "GS10" start end_ = Return gs10.
Hypothesis fred_cpi : fred_month_end "CPIAUCSL" start end_ = Return cpi.
Hypothesis fred_vix : fred_month_end "VIXCLS" start end_ = Return vix.

Lemma ndx_ret_stamps : stamps (on_values (pct_change pad) ndx_me) = stamps ndx_me.
Proof.
  apply FetchFacts.on_values_stamps, PandasFacts.length_pct_change.
Qed.

Lemma returned_frame (df : DataFrame) :
  build_dataframe pad yahoo_close_month_end fred_month_end start end_ = Return df ->
  df = {| index := union_index [on_values (pct_change pad) ndx_me; ffr; gs10; cpi; vix];
          columns :=
            map (fun c : string * Series =>
                   (c.1, reindex (union_index [on_values (pct_change pad) ndx_me;
                                               ffr; gs10; cpi; vix]) c.2))
                [("ndx_ret", on_values (pct_change pad) ndx_me); ("ffr", ffr);
                 ("gs10", gs10); ("cpi", cpi); ("vix", vix)] |}.
Proof.
  intros H.
  destruct (DataMergeFacts.build_dataframe_frame pad yahoo_close_month_end
              fred_month_end start end_ ndx_me ffr gs10 cpi vix
              yahoo_ndx fred_ffr fred_gs10 fred_cpi fred_vix df H) as [_ ->].
  reflexivity.
Qed.

Lemma frame_exists :
  existsb one_row [ffr; gs10; cpi; vix] = false ->
  exists df,
    build_dataframe pad yahoo_close_month_end fred_month_end start end_ = Return df.
Proof.
  intros H. eexists.
  apply (DataMergeFacts.build_dataframe_returns pad yahoo_close_month_end
           fred_month_end start end_ ndx_me ffr gs10 cpi vix
           yahoo_ndx fred_ffr fred_gs10 fred_cpi fred_vix H).
Qed.

(** X16.  The index of a returned frame is strictly increasing, and a
    timestamp is in it exactly when one of the five series has a row at
    that timestamp: the series are merged on the union of their dates.  A
    frame is returned whenever no FRED answer has exactly one row. *)
Theorem build_dataframe_index :
  (forall df,
     build_dataframe pad yahoo_close_month_end fred_month_end start end_ = Return df ->
     StronglySorted Z.lt (index df) /\
     forall t, In t (index df) <->
       In t (stamps ndx_me) \/ In t (stamps ffr) \/ In t (stamps gs10) \/
       In t (stamps cpi) \/ In t (stamps vix)) /\
  (existsb one_row [ffr; gs10; cpi; vix] = false ->
   exists df,
     build_dataframe pad yahoo_close_month_end fred_month_end start end_ = Return df).
Proof.
  split; [| apply frame_exists].
  intros df H. rewrite (returned_frame df H). simpl.
  split; [apply union_index_sorted |].
  intros t. rewrite union_index_in. split.
  - intros (s & Hs & Ht). simpl in Hs.
    destruct Hs as [<- | [<- | [<- | [<- | [<- | []]]]]]; auto.
    rewrite ndx_ret_stamps in Ht. auto.
  - intros [H' | [H' | [H' | [H' | H']]]].
    + exists (on_values (pct_change pad) ndx_me). rewrite ndx_ret_stamps.
      split; [left; reflexivity | exact H'].
    + exists ffr. simpl. auto.
    + exists gs10. simpl. auto.
    + exists cpi. simpl. auto 6.
    + exists vix. simpl. auto 7.
Qed.

(** X17.  No observation of a FRED series is lost or moved: when the
    timestamps of the series do not repeat, each of its rows is found in
    its column of a returned frame, at the row of the frame with that
    timestamp; and where the series has no row, its column is missing.  A
    frame is returned whenever no FRED answer has exactly one row. *)
Theorem build_dataframe_reads_back (label : string) (s : Series) :
  In (label, s) [("ffr", ffr); ("gs10", gs10); ("cpi", cpi); ("vix", vix)] ->
  NoDup (stamps s) ->
  (forall df,
     build_dataframe pad yahoo_close_month_end fred_month_end start end_ = Return df ->
     exists col, getcol df label = Return col /\
       length col = length (index df) /\
       (forall t v, In (t, v) (rows s) ->
          exists i, index df !! i = Some t /\ col !! i = Some v) /\
       (forall i t, index df !! i = Some t -> ~ In t (stamps s) ->
          col !! i = Some nan)) /\
  (existsb one_row [ffr; gs10; cpi; vix] = false ->
   exists df,
     build_dataframe pad yahoo_close_month_end fred_month_end start end_ = Return df).
Proof.
  intros Hin Hnd. split; [| apply frame_exists].
  intros df H. rewrite (returned_frame df H).
  set (idx := union_index [on_values (pct_change pad) ndx_me; ffr; gs10; cpi; vix]).
  exists (reindex idx s). split.
  { simpl in Hin.
    destruct Hin as [E | [E | [E | [E | []]]]]; injection E as <- <-; reflexivity. }
  cbn [index]. unfold reindex. split; [apply length_map |]. split.
  - intros t v Hrow.
    assert (Ht : In t idx).
    { apply union_index_in. exists s. split.
      - simpl in Hin. simpl.
        destruct Hin as [E | [E | [E | [E | []]]]]; injection E as _ <-; auto 7.
      - unfold stamps. change t with (fst (t, v)). apply in_map, Hrow. }
    apply list_elem_of_In, list_elem_of_lookup in Ht as [i Hi].
    exists i. split; [exact Hi |].
    change (map (value_at s) idx) with (value_at s <$> idx).
    rewrite list_lookup_fmap, Hi. simpl. f_equal.
    apply value_at_row; assumption.
  - intros i t Hi Hnot.
    change (map (value_at s) idx) with (value_at s <$> idx).
    rewrite list_lookup_fmap, Hi. simpl. f_equal.
    apply value_at_absent, Hnot.
Qed.

End Facts.

Lemma build_dataframe_index_witness :
  (forall df,
     build_dataframe true sample_yahoo sample_fred_no_vix "2020-01-01" "2024-04-30"
     = Return df ->
     StronglySorted Z.lt (index df) /\
     forall t, In t (index df) <->
       In t (stamps {| name := "Close";
                       rows := [(1, 100%float); (2, 150%float); (3, 75%float)] |}) \/
       In t (stamps {| name := "FEDFUNDS";
                       rows := [(1, 1%float); (2, 2%float); (3, 4%float)] |}) \/
       In t (stamps {| name := "GS10";
                       rows := [(1, 1%float); (2, 2%float); (3, 4%float)] |}) \/
       In t (stamps {| name := "CPIAUCSL";
                       rows := [(1, 1%float); (2, 2%float); (3, 4%float)] |}) \/
       In t (stamps {| name := "VIXCLS"; rows := [] |})) /\
  (existsb one_row
     [{| name := "FEDFUNDS"; rows := [(1, 1%float); (2, 2%float); (3, 4%float)] |};
      {| name := "GS10"; rows := [(1, 1%float); (2, 2%float); (3, 4%float)] |};
      {| name := "CPIAUCSL"; rows := [(1, 1%float); (2, 2%float); (3, 4%float)] |};
      {| name := "VIXCLS"; rows := [] |}] = false ->
   exists df,
     build_dataframe true sample_yahoo sample_fred_no_vix "2020-01-01" "2024-04-30"
     = Return df).
Proof.
  apply (build_dataframe_index true sample_yahoo sample_fred_no_vix
           "2020-01-01" "2024-04-30"); reflexivity.
Defined.

Lemma build_dataframe_reads_back_witness :
  (forall df,
     build_dataframe true sample_yahoo sample_fred "2020-01-01" "2024-04-30"
     = Return df ->
     exists col, getcol df "cpi" = Return col /\
       length col = length (index df) /\
       (forall t v,
          In (t, v) (rows {| name := "CPIAUCSL";
                             rows := [(1, 1%float); (2, 2%float); (3, 4%float)] |}) ->
          exists i, index df !! i = Some t /\ col !! i = Some v) /\
       (forall i t, index df !! i = Some t ->
          ~ In t (stamps {| name := "CPIAUCSL";
                            rows := [(1, 1%float); (2, 2%float); (3, 4%float)] |}) ->
          col !! i = Some nan)) /\
  (existsb one_row
     [{| name := "FEDFUNDS"; rows := [(1, 1%float); (2, 2%float); (3, 4%float)] |};
      {| name := "GS10"; rows := [(1, 1%float); (2, 2%float); (3, 4%float)] |};
      {| name := "CPIAUCSL"; rows := [(1, 1%float); (2, 2%float); (3, 4%float)] |};
      {| name := "VIXCLS"; rows := [(1, 1%float); (2, 2%float); (3, 4%float)] |}]
   = false ->
   exists df,
     build_dataframe true sample_yahoo sample_fred "2020-01-01" "2024-04-30"
     = Return df).
Proof.
  apply (build_dataframe_reads_back true sample_yahoo sample_fred
           "2020-01-01" "2024-04-30"
           {| name := "Close"; rows := [(1, 100%float); (2, 150%float); (3, 75%float)] |}
           {| name := "FEDFUNDS"; rows := [(1, 1%float); (2, 2%float); (3, 4%float)] |}
           {| name := "GS10"; rows := [(1, 1%float); (2, 2%float); (3, 4%float)] |}
           {| name := "CPIAUCSL"; rows := [(1, 1%float); (2, 2%float); (3, 4%float)] |}
           {| name := "VIXCLS"; rows := [(1, 1%float); (2, 2%float); (3, 4%float)] |});
    try reflexivity.
  - simpl. auto.
  - unfold stamps. simpl. apply (bool_decide_unpack _). vm_compute. exact I.
Defined.

End DataMergeMore.

(** ** More on the transforms of [main] *)

Module MainMore.
Import Pandas Main.

Lemma sub_nan_r (x : float) : (x - nan)%float = nan.
Proof.
  apply Prim2SF_inj. rewrite sub_spec, F64Facts.Prim2SF_nan.
  destruct (Prim2SF x) as [[] | [] | | [] m e]; reflexivity.
Qed.

Lemma mul_nan_l (y : float) : (nan * y)%float = nan.
Proof. apply Prim2SF_inj. rewrite mul_spec, F64Facts.Prim2SF_nan. reflexivity. Qed.

Lemma length_diff (vs : list float) : length (diff vs) = length vs.
Proof. unfold diff. rewrite length_zip_with, PandasFacts.length_shift. lia. Qed.

Lemma diff_lookup (vs : list float) (t : nat) (x y : float) :
  vs !! t = Some y -> vs !! S t = Some x -> diff vs !! S t = Some (x - y)%float.
Proof.
  intros Hy Hx. unfold diff.
  rewrite lookup_zip_with, Hx. simpl.
  rewrite (PandasFacts.shift_lookup_S vs t x Hx), Hy. reflexivity.
Qed.

Lemma diff_first (v : float) (vs : list float) : diff (v :: vs) !! 0%nat = Some nan.
Proof. unfold diff. rewrite lookup_zip_with. simpl. rewrite sub_nan_r. reflexivity. Qed.

Lemma diff_all_missing (vs : list float) :
  Forall (fun v => v = nan) vs -> Forall (fun v => v = nan) (diff vs).
Proof.
  intros H. unfold diff. apply Forall_forall. intros z Hz.
  apply elem_of_zip_with in Hz as (x & y & -> & Hx & _).
  rewrite Forall_forall in H. rewrite (H x Hx). apply F64Facts.sub_nan_l.
Qed.

Lemma scaled_all_missing (vs : list float) :
  Forall (fun v => v = nan) vs ->
  Forall (fun v => v = nan) (map (fun x => x * 100)%float vs).
Proof.
  intros H. change (map (fun x => x * 100)%float vs)
    with ((fun x => x * 100)%float <$> vs).
  apply Forall_fmap. eapply Forall_impl; [exact H |].
  intros v ->. simpl. reflexivity.
Qed.

(** Reading a column after an assignment. *)
Lemma lookup_assign_eq (l : string) (vs : list float) (cols : list (string * list float)) :
  lookup_column l (assign_column l vs cols) = Some vs.
Proof.
  induction cols as [| [c old] cols IH]; simpl.
  - rewrite String.eqb_refl. reflexivity.
  - destruct (String.eqb c l) eqn:E; simpl; rewrite E; [reflexivity | exact IH].
Qed.

Lemma lookup_assign_ne (l l' : string) (vs : list float) (cols : list (string * list float)) :
  l <> l' -> lookup_column l (assign_column l' vs cols) = lookup_column l cols.
Proof.
  intros Hne. induction cols as [| [c old] cols IH]; simpl.
  - destruct (String.eqb_spec l' l); [congruence | reflexivity].
  - destruct (String.eqb_spec c l') as [-> | Hc]; simpl.
    + destruct (String.eqb_spec l' l); [congruence | reflexivity].
    + destruct (String.eqb c l); [reflexivity | exact IH].
Qed.

Lemma assign_same (l : string) (vs : list float) (cols : list (string * list float)) :
  lookup_column l cols = Some vs -> assign_column l vs cols = cols.
Proof.
  induction cols as [| [c old] cols IH]; simpl; [discriminate |].
  destruct (String.eqb_spec c l) as [-> | Hc].
  - intros [= ->]. reflexivity.
  - intros H. f_equal. apply IH, H.
Qed.

(** X18.  The three difference columns: [d_ffr], [d_gs10] and [d_vix] have
    one value per period; at every period after the first the value is the
    column minus its predecessor, and at the first period it is missing. *)
Theorem difference_columns (pad : bool) (df : DataFrame) :
  column_names df = DataMerge.canonical_columns ->
  exists df', add_derived_columns pad df = Return df' /\
    forall base derived,
      In (base, derived) [("ffr", "d_ffr"); ("gs10", "d_gs10"); ("vix", "d_vix")] ->
      exists col dcol,
        getcol df base = Return col /\ getcol df' derived = Return dcol /\
        length dcol = length col /\
        (forall t x y, col !! t = Some y -> col !! S t = Some x ->
                       dcol !! S t = Some (x - y)%float) /\
        (forall x, col !! 0%nat = Some x -> dcol !! 0%nat = Some nan).
Proof.
  intros Hc.
  destruct (MainFacts.add_derived_columns_returns pad df Hc)
    as (ndx_ret & ffr & gs10 & cpi & vix & Hcols & Hret).
  eexists. split; [exact Hret |].
  intros base derived Hin. simpl in Hin.
  destruct Hin as [H | [H | [H | []]]]; injection H as <- <-;
    unfold getcol; simpl; rewrite Hcols; simpl;
    (eexists; eexists; split; [reflexivity |]; split; [reflexivity |];
     split; [apply length_diff |]; split;
     [intros t x y; apply diff_lookup
     | intros x Hx;
       match goal with
       | H : ?c !! 0%nat = Some _ |- _ =>
           destruct c; [discriminate | apply diff_first]
       end]).
Qed.

(** X19.  On a frame whose column labels do not repeat, the transforms
    need the columns [ffr], [gs10], [cpi] and [vix] and nothing else: they
    return a frame exactly when the four are present, and they raise
    [KeyError] exactly when one of them is absent. *)
Theorem add_derived_columns_missing_key (pad : bool) (df : DataFrame) :
  NoDup (column_names df) ->
  ((exists df', add_derived_columns pad df = Return df') <->
   forall c, In c ["ffr"; "gs10"; "cpi"; "vix"] ->
             is_Some (lookup_column c (columns df))) /\
  (add_derived_columns pad df = Raise KeyError <->
   exists c, In c ["ffr"; "gs10"; "cpi"; "vix"] /\
             lookup_column c (columns df) = None).
Proof.
  intros _. unfold add_derived_columns, getcol. simpl.
  destruct (lookup_column "ffr" (columns df)) as [ffr |] eqn:E1; simpl.
  2:{ split; split.
      - intros [? ?]; discriminate.
      - intros H. destruct (H "ffr") as [x Hx]; [simpl; auto |]. congruence.
      - intros _. exists "ffr". simpl. auto.
      - reflexivity. }
  rewrite lookup_assign_ne by discriminate.
  destruct (lookup_column "gs10" (columns df)) as [gs10 |] eqn:E2; simpl.
  2:{ split; split.
      - intros [? ?]; discriminate.
      - intros H. destruct (H "gs10") as [x Hx]; [simpl; auto |]. congruence.
      - intros _. exists "gs10". simpl. auto.
      - reflexivity. }
  rewrite !lookup_assign_ne by discriminate.
  destruct (lookup_column "cpi" (columns df)) as [cpi |] eqn:E3; simpl.
  2:{ split; split.
      - intros [? ?]; discriminate.
      - intros H. destruct (H "cpi") as [x Hx]; [simpl; auto |]. congruence.
      - intros _. exists "cpi". simpl. auto.
      - reflexivity. }
  rewrite !lookup_assign_ne by discriminate.
  destruct (lookup_column "vix" (columns df)) as [vix |] eqn:E4; simpl.
  2:{ split; split.
      - intros [? ?]; discriminate.
      - intros H. destruct (H "vix") as [x Hx]; [simpl; auto 6 |]. congruence.
      - intros _. exists "vix". simpl. auto 6.
      - reflexivity. }
  split; split.
  - intros _ c [<- | [<- | [<- | [<- | []]]]]; eexists; eassumption.
  - intros _. eexists. reflexivity.
  - discriminate.
  - intros (c & [<- | [<- | [<- | [<- | []]]]] & Hc); congruence.
Qed.

(** X20.  On a frame whose column labels do not repeat, running the
    transforms a second time changes nothing: the four derived columns are
    computed again from the same base columns and overwritten with the same
    values. *)
Theorem add_derived_columns_idempotent (pad : bool) (df df1 : DataFrame) :
  NoDup (column_names df) ->
  add_derived_columns pad df = Return df1 ->
  add_derived_columns pad df1 = Return df1.
Proof.
  intros _. unfold add_derived_columns, getcol. simpl.
  destruct (lookup_column "ffr" (columns df)) as [ffr |] eqn:E1; simpl; [| discriminate].
  rewrite lookup_assign_ne by discriminate.
  destruct (lookup_column "gs10" (columns df)) as [gs10 |] eqn:E2; simpl; [| discriminate].
  rewrite !lookup_assign_ne by discriminate.
  destruct (lookup_column "cpi" (columns df)) as [cpi |] eqn:E3; simpl; [| discriminate].
  rewrite !lookup_assign_ne by discriminate.
  destruct (lookup_column "vix" (columns df)) as [vix |] eqn:E4; simpl; [| discriminate].
  intros [= <-]. unfold setcol. simpl.
  rewrite !lookup_assign_ne by discriminate. rewrite E1. simpl.
  rewrite (assign_same "d_ffr" (diff ffr))
    by (rewrite !lookup_assign_ne by discriminate; apply lookup_assign_eq).
  rewrite !lookup_assign_ne by discriminate. rewrite E2. simpl.
  rewrite (assign_same "d_gs10" (diff gs10))
    by (rewrite !lookup_assign_ne by discriminate; apply lookup_assign_eq).
  rewrite !lookup_assign_ne by discriminate. rewrite E3. simpl.
  rewrite (assign_same "inflation")
    by (rewrite !lookup_assign_ne by discriminate; apply lookup_assign_eq).
  rewrite !lookup_assign_ne by discriminate. rewrite E4. simpl.
  rewrite (assign_same "d_vix" (diff vix)) by apply lookup_assign_eq.
  reflexivity.
Qed.

Lemma difference_columns_witness :
  exists df', add_derived_columns true sample_frame = Return df' /\
    forall base derived,
      In (base, derived) [("ffr", "d_ffr"); ("gs10", "d_gs10"); ("vix", "d_vix")] ->
      exists col dcol,
        getcol sample_frame base = Return col /\ getcol df' derived = Return dcol /\
        length dcol = length col /\
        (forall t x y, col !! t = Some y -> col !! S t = Some x ->
                       dcol !! S t = Some (x - y)%float) /\
        (forall x, col !! 0%nat = Some x -> dcol !! 0%nat = Some nan).
Proof. apply (difference_columns true sample_frame). reflexivity. Defined.

Lemma add_derived_columns_idempotent_witness :
  add_derived_columns false
    {| index := [1; 2; 3];
       columns := [("ndx_ret", [nan; 0.5; -0.5]%float); ("ffr", [1; 2; 4]%float);
                   ("gs10", [1; 2; 4]%float); ("cpi", [100; 150; 75]%float);
                   ("vix", [20; 10; 30]%float);
                   ("d_ffr", [nan; 1; 2]%float); ("d_gs10", [nan; 1; 2]%float);
                   ("inflation", [nan; 50; -50]%float);
                   ("d_vix", [nan; -10; 20]%float)] |}
  = Return
    {| index := [1; 2; 3];
       columns := [("ndx_ret", [nan; 0.5; -0.5]%float); ("ffr", [1; 2; 4]%float);
                   ("gs10", [1; 2; 4]%float); ("cpi", [100; 150; 75]%float);
                   ("vix", [20; 10; 30]%float);
                   ("d_ffr", [nan; 1; 2]%float); ("d_gs10", [nan; 1; 2]%float);
                   ("inflation", [nan; 50; -50]%float);
                   ("d_vix", [nan; -10; 20]%float)] |}.
Proof.
  apply (add_derived_columns_idempotent false sample_frame).
  - apply (bool_decide_unpack _). vm_compute. exact I.
  - vm_compute. reflexivity.
Defined.

Lemma add_derived_columns_missing_key_witness :
  ((exists df', add_derived_columns true sample_frame = Return df') <->
   forall c, In c ["ffr"; "gs10"; "cpi"; "vix"] ->
             is_Some (lookup_column c (columns sample_frame))) /\
  (add_derived_columns true sample_frame = Raise KeyError <->
   exists c, In c ["ffr"; "gs10"; "cpi"; "vix"] /\
             lookup_column c (columns sample_frame) = None).
Proof.
  apply (add_derived_columns_missing_key true sample_frame).
  apply (bool_decide_unpack _). vm_compute. exact I.
Defined.

(** *** The FPE line *)

(** X24.  With as many regressors as observations the FPE line divides by
    [n - k = 0]: it raises [ZeroDivisionError] and no value is logged. *)
Theorem fpe_saturated_model (ssr : Q) (n k : Z) :
  n <> 0 -> n = k -> fpe ssr n k = Raise ZeroDivisionError.
Proof.
  intros Hn <-. unfold fpe.
  rewrite (MainFacts.divide_nonzero ssr (inject_Z n))
    by (apply MainFacts.inject_Z_nonzero; exact Hn).
  simpl. replace (n - n) with 0 by lia. reflexivity.
Qed.

(** X25.  With fewer regressors than observations the FPE is defined and
    is never below the mean squared residual [ssr / n]: the factor
    [(n + k) / (n - k)] only inflates it. *)
Theorem fpe_penalises (ssr : Q) (n k : Z) :
  (0 <= ssr)%Q -> 0 <= k < n ->
  exists v, fpe ssr n k = Return v /\ (ssr / inject_Z n <= v)%Q.
Proof.
  intros Hssr Hk. unfold fpe.
  rewrite (MainFacts.divide_nonzero ssr (inject_Z n))
    by (apply MainFacts.inject_Z_nonzero; lia).
  simpl.
  rewrite (MainFacts.divide_nonzero _ (inject_Z (n - k)))
    by (apply MainFacts.inject_Z_nonzero; lia).
  simpl. eexists. split; [reflexivity |].
  assert (Hn : (inject_Z 0 < inject_Z n)%Q) by (rewrite <- Zlt_Qlt; lia).
  assert (Hd : (inject_Z 0 < inject_Z (n - k))%Q) by (rewrite <- Zlt_Qlt; lia).
  assert (Ha : (0 <= ssr / inject_Z n)%Q).
  { apply Qle_shift_div_l; [exact Hn |]. rewrite Qmult_0_l. exact Hssr. }
  assert (Hb : (1 <= inject_Z (n + k) / inject_Z (n - k))%Q).
  { apply Qle_shift_div_l; [exact Hd |]. rewrite Qmult_1_l.
    rewrite <- Zle_Qle. lia. }
  rewrite <- (Qmult_1_r (ssr / inject_Z n)) at 1.
  rewrite !(Qmult_comm (ssr / inject_Z n)).
  apply Qmult_le_compat_r; assumption.
Qed.

Lemma fpe_saturated_model_witness : fpe 3 2 2 = Raise ZeroDivisionError.
Proof. apply (fpe_saturated_model 3 2 2); [lia | reflexivity]. Defined.

Lemma fpe_penalises_witness :
  exists v, fpe 3 5 2 = Return v /\ (3 / inject_Z 5 <= v)%Q.
Proof. apply (fpe_penalises 3 5 2); [discriminate | lia]. Defined.

End MainMore.

(** ** The regression sample *)

Module SampleFacts.
Import Pandas Sample.

Lemma keep_rows_nil {A : Type} (keep : list bool) : keep_rows keep ([] : list A) = [].
Proof. destruct keep; reflexivity. Qed.

Lemma keep_rows_in {A : Type} (keep : list bool) : forall (l : list A) (v : A),
  In v (keep_rows keep l) ->
  exists i, keep !! i = Some true /\ l !! i = Some v.
Proof.
  induction keep as [| k keep IH]; intros [| x l] v; simpl; try contradiction.
  destruct k; simpl.
  - intros [<- | H]; [exists 0%nat; auto |].
    destruct (IH l v H) as (i & Hk & Hl). exists (S i). auto.
  - intros H. destruct (IH l v H) as (i & Hk & Hl). exists (S i). auto.
Qed.

Lemma keep_rows_length {A B : Type} (keep : list bool) : forall (l : list A) (k : list B),
  (forall i, keep !! i = Some true -> (i < length l)%nat /\ (i < length k)%nat) ->
  length (keep_rows keep l) = length (keep_rows keep k).
Proof.
  induction keep as [| b keep IH]; intros l k H; [reflexivity |].
  destruct l as [| x l], k as [| y k]; simpl.
  - reflexivity.
  - destruct b; [destruct (H 0%nat eq_refl); simpl in *; lia |].
    specialize (IH ([] : list A) k). rewrite keep_rows_nil in IH. apply IH.
    intros i Hi. destruct (H (S i) Hi). simpl in *. lia.
  - destruct b; [destruct (H 0%nat eq_refl); simpl in *; lia |].
    specialize (IH l ([] : list B)). rewrite keep_rows_nil in IH. apply IH.
    intros i Hi. destruct (H (S i) Hi). simpl in *. lia.
  - assert (Hrec : length (keep_rows keep l) = length (keep_rows keep k)).
    { apply IH. intros i Hi. destruct (H (S i) Hi). simpl in *. lia. }
    destruct b; simpl; lia.
Qed.

Lemma keep_rows_sublist {A : Type} (keep : list bool) : forall l : list A,
  sublist (keep_rows keep l) l.
Proof.
  induction keep as [| k keep IH]; intros [| x l]; simpl;
    try apply sublist_nil_l.
  destruct k; [apply sublist_skip | apply sublist_cons]; apply IH.
Qed.

Lemma keep_rows_none {A : Type} (f : nat -> bool) (n : nat) :
  (forall i, f i = false) ->
  forall (s : nat) (l : list A), keep_rows (map f (seq s n)) l = [].
Proof.
  intros Hf. induction n as [| n IH]; intros s [| x l]; simpl; try reflexivity.
  rewrite Hf. apply IH.
Qed.

Lemma row_complete_lookup (cols : list (string * list float)) (i : nat)
  (c : string * list float) :
  row_complete cols i = true -> In c cols ->
  exists v, c.2 !! i = Some v /\ F64.isna v = false.
Proof.
  unfold row_complete. intros H Hin.
  rewrite forallb_forall in H. specialize (H c Hin). simpl in H.
  destruct (c.2 !! i) as [v |]; [| discriminate].
  exists v. split; [reflexivity |]. apply negb_true_iff, H.
Qed.

(** A column that is missing throughout leaves no complete row. *)
Lemma row_complete_all_missing (cols : list (string * list float)) (i : nat)
  (c : string * list float) :
  In c cols -> Forall (fun v => v = nan) c.2 -> row_complete cols i = false.
Proof.
  intros Hin Hc. destruct (row_complete cols i) eqn:E; [| reflexivity].
  destruct (row_complete_lookup cols i c E Hin) as (v & Hv & Hna).
  rewrite Forall_forall in Hc.
  rewrite (Hc v) in Hna; [discriminate |].
  apply list_elem_of_lookup. eauto.
Qed.

Lemma dropna_rows_keep (df : DataFrame) (i : nat) :
  map (row_complete (columns df)) (seq 0 (length (index df))) !! i = Some true ->
  (i < length (index df))%nat /\ row_complete (columns df) i = true.
Proof.
  intros H.
  change (map (row_complete (columns df)) (seq 0 (length (index df))))
    with (row_complete (columns df) <$> seq 0 (length (index df))) in H.
  rewrite list_lookup_fmap in H.
  destruct (seq 0 (length (index df)) !! i) as [j |] eqn:Hj; [| discriminate].
  apply lookup_seq in Hj as [-> Hlt]. simpl in H. injection H as H. auto.
Qed.

(** What [dropna] leaves of a frame: a rectangular frame with the same
    column names and without a missing value. *)
Lemma dropna_rows_complete (df : DataFrame) :
  column_names (dropna_rows df) = column_names df /\
  well_formed (dropna_rows df) /\
  (forall c v, In c (columns (dropna_rows df)) -> In v c.2 -> F64.isna v = false) /\
  sublist (index (dropna_rows df)) (index df).
Proof.
  unfold dropna_rows, column_names, well_formed. simpl.
  set (keep := map (row_complete (columns df)) (seq 0 (length (index df)))).
  split; [| split; [| split]].
  - rewrite map_map. reflexivity.
  - apply Forall_forall. intros c Hc.
    apply list_elem_of_In, in_map_iff in Hc as (c0 & <- & Hc0). simpl.
    apply keep_rows_length. intros i Hi.
    destruct (dropna_rows_keep df i Hi) as [Hlt Hrow].
    destruct (row_complete_lookup _ i c0 Hrow Hc0) as (v & Hv & _).
    apply lookup_lt_Some in Hv. auto.
  - intros c v Hc Hv.
    apply in_map_iff in Hc as (c0 & <- & Hc0). simpl in Hv.
    apply keep_rows_in in Hv as (i & Hi & Hl).
    destruct (dropna_rows_keep df i Hi) as [_ Hrow].
    destruct (row_complete_lookup _ i c0 Hrow Hc0) as (v' & Hv' & Hna).
    congruence.
  - apply keep_rows_sublist.
Qed.

Lemma pick_columns_names (df : DataFrame) (labels : list string) :
  forall cols, pick_columns df labels = Return cols -> map fst cols = labels.
Proof.
  induction labels as [| l ls IH]; simpl; intros cols.
  - intros [= <-]. reflexivity.
  - destruct (getcol df l) as [vs | |]; simpl; try discriminate.
    destruct (pick_columns df ls) as [rest | |]; simpl; try discriminate.
    intros [= <-]. simpl. f_equal. apply IH. reflexivity.
Qed.

(** X21.  The regression sample of a frame whose column labels do not
    repeat is complete and aligned: it has the
    columns [ndx_ret, d_ffr, d_gs10, inflation, d_vix] in that order, every
    column has one value per row of the sample, no value is missing, and
    its dates are dates of the frame, in the same order. *)
Theorem regression_sample_complete (df m : DataFrame) :
  NoDup (column_names df) ->
  regression_sample df = Return m ->
  column_names m = regression_columns /\
  well_formed m /\
  (forall c v, In c (columns m) -> In v c.2 -> F64.isna v = false) /\
  sublist (index m) (index df).
Proof.
  intros _. unfold regression_sample, select_columns.
  destruct (pick_columns df regression_columns) as [cols | |] eqn:E;
    simpl; try discriminate.
  intros [= <-].
  destruct (dropna_rows_complete {| index := index df; columns := cols |})
    as (Hn & Hw & Hv & Hs).
  split; [| auto].
  rewrite Hn. unfold column_names. simpl. apply (pick_columns_names df _ _ E).
Qed.

Lemma diff_head (vs : list float) : diff vs = [] \/ exists ds, diff vs = nan :: ds.
Proof.
  destruct vs as [| v vs]; [left; reflexivity |]. right.
  pose proof (MainMore.diff_first v vs) as H.
  destruct (diff (v :: vs)) as [| d ds]; [discriminate |].
  injection H as ->. eauto.
Qed.

(** The sample of a frame with the five downloaded columns, after the
    transforms. *)
Lemma transformed_sample (pad : bool) (df0 : DataFrame) :
  column_names df0 = DataMerge.canonical_columns ->
  exists ndx_ret ffr gs10 cpi vix df1,
    columns df0 = [("ndx_ret", ndx_ret); ("ffr", ffr); ("gs10", gs10);
                   ("cpi", cpi); ("vix", vix)] /\
    Main.add_derived_columns pad df0 = Return df1 /\
    regression_sample df1
    = Return (dropna_rows
                {| index := index df0;
                   columns := [("ndx_ret", ndx_ret); ("d_ffr", diff ffr);
                               ("d_gs10", diff gs10);
                               ("inflation",
                                map (fun x => x * 100)%float (pct_change pad cpi));
                               ("d_vix", diff vix)] |}).
Proof.
  intros Hc.
  destruct (MainFacts.add_derived_columns_returns pad df0 Hc)
    as (ndx_ret & ffr & gs10 & cpi & vix & Hcols & Hret).
  exists ndx_ret, ffr, gs10, cpi, vix. eexists.
  split; [exact Hcols |]. split; [exact Hret |].
  unfold regression_sample, select_columns, regression_columns, pick_columns, getcol.
  simpl. rewrite Hcols. reflexivity.
Qed.

(** The first row of the transformed frame is never complete. *)
Lemma transformed_rows_after_first (pad : bool) (idx : list Z)
  (ndx_ret ffr gs10 cpi vix : list float) :
  sublist
    (index (dropna_rows
              {| index := idx;
                 columns := [("ndx_ret", ndx_ret); ("d_ffr", diff ffr);
                             ("d_gs10", diff gs10);
                             ("inflation",
                              map (fun x => x * 100)%float (pct_change pad cpi));
                             ("d_vix", diff vix)] |}))
    (tail idx).
Proof.
  unfold dropna_rows. cbn [index columns].
  destruct idx as [| t0 idx]; [rewrite keep_rows_nil; apply sublist_nil_l |].
  assert (H0 : row_complete
                 [("ndx_ret", ndx_ret); ("d_ffr", diff ffr); ("d_gs10", diff gs10);
                  ("inflation", map (fun x => x * 100)%float (pct_change pad cpi));
                  ("d_vix", diff vix)] 0 = false).
  { unfold row_complete. simpl.
    destruct (diff_head ffr) as [-> | [ds ->]]; simpl; apply andb_false_r. }
  cbn [length seq map tail]. rewrite H0. cbn [keep_rows]. apply keep_rows_sublist.
Qed.

(** X22.  The first period never enters the regression sample: the
    differences are missing there, so the dates of the sample are among
    the dates of the frame after the first. *)
Theorem regression_sample_drops_first (pad : bool) (df0 : DataFrame) :
  column_names df0 = DataMerge.canonical_columns ->
  exists df1 m,
    Main.add_derived_columns pad df0 = Return df1 /\
    regression_sample df1 = Return m /\
    sublist (index m) (tail (index df0)).
Proof.
  intros Hc.
  destruct (transformed_sample pad df0 Hc)
    as (ndx_ret & ffr & gs10 & cpi & vix & df1 & Hcols & Hret & Hs).
  exists df1. eexists. split; [exact Hret |]. split; [exact Hs |].
  apply transformed_rows_after_first.
Qed.

(** X23.  One series without an observation empties the sample: when one
    of the five downloaded columns is missing at every row, the regression
    sample has no row at all. *)
Theorem regression_sample_empty (pad : bool) (df0 : DataFrame) (c : string)
  (col : list float) :
  column_names df0 = DataMerge.canonical_columns ->
  In c DataMerge.canonical_columns ->
  getcol df0 c = Return col ->
  forallb F64.isna col = true ->
  exists df1 m,
    Main.add_derived_columns pad df0 = Return df1 /\
    regression_sample df1 = Return m /\
    index m = [].
Proof.
  intros Hc Hin Hget Hna.
  apply PandasFacts.all_nan_forallb in Hna.
  destruct (transformed_sample pad df0 Hc)
    as (ndx_ret & ffr & gs10 & cpi & vix & df1 & Hcols & Hret & Hs).
  exists df1. eexists. split; [exact Hret |]. split; [exact Hs |].
  unfold dropna_rows. cbn [index columns]. apply keep_rows_none. intros i.
  unfold getcol in Hget. rewrite Hcols in Hget. simpl in Hin.
  destruct Hin as [<- | [<- | [<- | [<- | [<- | []]]]]];
    simpl in Hget; injection Hget as ->.
  - apply (row_complete_all_missing _ i ("ndx_ret", col)); simpl; auto.
  - apply (row_complete_all_missing _ i ("d_ffr", diff col)); simpl; auto.
    apply MainMore.diff_all_missing, Hna.
  - apply (row_complete_all_missing _ i ("d_gs10", diff col)); simpl; auto.
    apply MainMore.diff_all_missing, Hna.
  - apply (row_complete_all_missing _ i
             ("inflation", map (fun x => x * 100)%float (pct_change pad col)));
      simpl; auto 6.
    apply MainMore.scaled_all_missing, PandasFacts.pct_change_all_missing, Hna.
  - apply (row_complete_all_missing _ i ("d_vix", diff col)); simpl; auto 7.
    apply MainMore.diff_all_missing, Hna.
Qed.

Lemma regression_sample_complete_witness :
  column_names
    {| index := [2; 3];
       columns := [("ndx_ret", [0.5; -0.5]%float); ("d_ffr", [1; 2]%float);
                   ("d_gs10", [1; 2]%float); ("inflation", [50; -50]%float);
                   ("d_vix", [-10; 20]%float)] |} = regression_columns /\
  well_formed
    {| index := [2; 3];
       columns := [("ndx_ret", [0.5; -0.5]%float); ("d_ffr", [1; 2]%float);
                   ("d_gs10", [1; 2]%float); ("inflation", [50; -50]%float);
                   ("d_vix", [-10; 20]%float)] |} /\
  (forall c v,
     In c (columns
             {| index := [2; 3];
                columns := [("ndx_ret", [0.5; -0.5]%float); ("d_ffr", [1; 2]%float);
                            ("d_gs10", [1; 2]%float); ("inflation", [50; -50]%float);
                            ("d_vix", [-10; 20]%float)] |}) ->
     In v c.2 -> F64.isna v = false) /\
  sublist
    (index
       {| index := [2; 3];
          columns := [("ndx_ret", [0.5; -0.5]%float); ("d_ffr", [1; 2]%float);
                      ("d_gs10", [1; 2]%float); ("inflation", [50; -50]%float);
                      ("d_vix", [-10; 20]%float)] |})
    (index
       {| index := [1; 2; 3];
          columns := [("ndx_ret", [nan; 0.5; -0.5]%float); ("ffr", [1; 2; 4]%float);
                      ("gs10", [1; 2; 4]%float); ("cpi", [100; 150; 75]%float);
                      ("vix", [20; 10; 30]%float);
                      ("d_ffr", [nan; 1; 2]%float); ("d_gs10", [nan; 1; 2]%float);
                      ("inflation", [nan; 50; -50]%float);
                      ("d_vix", [nan; -10; 20]%float)] |}).
Proof.
  apply (regression_sample_complete
           {| index := [1; 2; 3];
              columns := [("ndx_ret", [nan; 0.5; -0.5]%float); ("ffr", [1; 2; 4]%float);
                          ("gs10", [1; 2; 4]%float); ("cpi", [100; 150; 75]%float);
                          ("vix", [20; 10; 30]%float);
                          ("d_ffr", [nan; 1; 2]%float); ("d_gs10", [nan; 1; 2]%float);
                          ("inflation", [nan; 50; -50]%float);
                          ("d_vix", [nan; -10; 20]%float)] |}).
  - apply (bool_decide_unpack _). vm_compute. exact I.
  - vm_compute. reflexivity.
Defined.

Lemma regression_sample_drops_first_witness :
  exists df1 m,
    Main.add_derived_columns false Main.sample_frame = Return df1 /\
    regression_sample df1 = Return m /\
    sublist (index m) (tail (index Main.sample_frame)).
Proof.
  apply (regression_sample_drops_first false Main.sample_frame). reflexivity.
Defined.

Lemma regression_sample_empty_witness :
  exists df1 m,
    Main.add_derived_columns false
      {| index := [1; 2; 3];
         columns := [("ndx_ret", [nan; 0.5; -0.5]%float); ("ffr", [1; 2; 4]%float);
                     ("gs10", [1; 2; 4]%float); ("cpi", [1; 2; 4]%float);
                     ("vix", [nan; nan; nan])] |} = Return df1 /\
    regression_sample df1 = Return m /\
    index m = [].
Proof.
  apply (regression_sample_empty false
           {| index := [1; 2; 3];
              columns := [("ndx_ret", [nan; 0.5; -0.5]%float); ("ffr", [1; 2; 4]%float);
                          ("gs10", [1; 2; 4]%float); ("cpi", [1; 2; 4]%float);
                          ("vix", [nan; nan; nan])] |}
           "vix" [nan; nan; nan]).
  - reflexivity.
  - simpl. auto 7.
  - reflexivity.
  - reflexivity.
Defined.

(** *** From the dates to the sample *)

Lemma validate_dates_returned (to_datetime : string -> string -> outcome Dates.datetime)
  (start end_ : string) (p : string * string) :
  Dates.validate_dates to_datetime start end_ = Return p -> p = (start, end_).
Proof.
  unfold Dates.validate_dates.
  destruct (to_datetime start Dates.DATE_FMT) as [s | [] | c]; simpl; try discriminate.
  destruct (to_datetime end_ Dates.DATE_FMT) as [e | [] | c]; simpl; try discriminate.
  destruct (Dates.ge s e); [discriminate |]. intros [= <-]. reflexivity.
Qed.

Lemma build_dataframe_returned (pad : bool)
  (yahoo fred : string -> string -> string -> outcome Series)
  (start end_ : string) (df : DataFrame) :
  DataMerge.build_dataframe pad yahoo fred start end_ = Return df ->
  column_names df = DataMerge.canonical_columns.
Proof.
  intros H.
  destruct (DataMergeFacts.build_dataframe_answers pad yahoo fred start end_ df H)
    as (ndx & ffr & gs10 & cpi & vix & H1 & H2 & H3 & H4 & H5 & _).
  destruct (DataMergeFacts.build_dataframe_frame pad yahoo fred start end_
              ndx ffr gs10 cpi vix H1 H2 H3 H4 H5 df H) as [_ ->].
  reflexivity.
Qed.

(** A loop of tests that comes back has tested every column it was given. *)
Lemma adf_each_returned (adfuller : Series -> outcome Stationarity.ADFResult)
  (df : DataFrame) (labels : list string) :
  (exists u, adf_each adfuller df labels = Return u) ->
  forall label, In label labels ->
    exists s r, column_series df label = Return s /\
                Stationarity.adf_test adfuller s label = Return r.
Proof.
  unfold adf_each. induction labels as [| l ls IH]; intros [u Hu] label Hin;
    [contradiction |].
  simpl in Hu.
  destruct (column_series df l) as [s | |] eqn:Es; simpl in Hu; try discriminate.
  destruct (Stationarity.adf_test adfuller s l) as [r | |] eqn:Er;
    simpl in Hu; try discriminate.
  destruct Hin as [<- | Hin]; [eauto |].
  apply IH; [| exact Hin]. destruct u. eauto.
Qed.

Section MainSample.

Variable pad : bool.
Variable to_datetime : string -> string -> outcome Dates.datetime.
Variable yahoo_close_month_end : string -> string -> string -> outcome Series.
Variable fred_month_end : string -> string -> string -> outcome Series.
Variable adfuller : Series -> outcome Stationarity.ADFResult.


(** X26.  Whenever [main] gets as far as the regression sample, the dates
    were accepted and the five downloads came back, and the sample is
    complete: the five regression columns, one value per row in each, no
    missing value, and rows taken from the merged frame after its first
    date. *)
Theorem main_sample_result (start end_ : string) (m : DataFrame) :
  main_sample pad to_datetime yahoo_close_month_end fred_month_end adfuller
    start end_ = Return m ->
  Dates.validate_dates to_datetime start end_ = Return (start, end_) /\
  exists df0,
    DataMerge.build_dataframe pad yahoo_close_month_end fred_month_end start end_
    = Return df0 /\
    column_names m = regression_columns /\
    well_formed m /\
    (forall c v, In c (columns m) -> In v c.2 -> F64.isna v = false) /\
    sublist (index m) (tail (index df0)).
Proof.
  unfold main_sample. intros H.
  destruct (Dates.validate_dates to_datetime start end_) as [dates | |] eqn:Ev;
    simpl in H; try discriminate.
  rewrite (validate_dates_returned _ _ _ _ Ev) in *. simpl in H.
  split; [reflexivity |].
  destruct (DataMerge.build_dataframe pad yahoo_close_month_end fred_month_end
              start end_) as [df0 | |] eqn:Eb; simpl in H; try discriminate.
  exists df0. split; [reflexivity |].
  destruct (adf_each adfuller df0 (column_names df0)) as [u | |];
    simpl in H; try discriminate.
  destruct (transformed_sample pad df0 (build_dataframe_returned _ _ _ _ _ _ Eb))
    as (ndx_ret & ffr & gs10 & cpi & vix & df1 & Hcols & Hret & Hs).
  rewrite Hret in H. simpl in H.
  destruct (adf_each adfuller df1 regression_columns) as [u' | |];
    simpl in H; try discriminate.
  rewrite Hs in H. injection H as <-.
  match goal with
  | |- context [dropna_rows ?d] =>
      destruct (dropna_rows_complete d) as (Hn & Hw & Hv & _)
  end.
  split; [rewrite Hn; reflexivity |]. split; [exact Hw |]. split; [exact Hv |].
  apply transformed_rows_after_first.
Qed.

(** X27.  An empty series stops [main] before the regression: when the
    dates are fine and the downloads return, but one of the five series is
    empty or missing throughout, and the ADF backend refuses a series
    without observations, no regression sample is produced. *)
Theorem main_sample_needs_observations (start end_ : string)
  (ndx_me ffr gs10 cpi vix s : Series) :
  (forall x, rows x = [] -> exists e, adfuller x = Raise e) ->
  yahoo_close_month_end "^NDX" start end_ = Return ndx_me ->
  fred_month_end "FEDFUNDS" start end_ = Return ffr ->
  fred_month_end "GS10" start end_ = Return gs10 ->
  fred_month_end "CPIAUCSL" start end_ = Return cpi ->
  fred_month_end "VIXCLS" start end_ = Return vix ->
  In s [ndx_me; ffr; gs10; cpi; vix] ->
  DataMerge.all_missing s = true ->
  forall m, main_sample pad to_datetime yahoo_close_month_end fred_month_end adfuller
    start end_ <> Return m.
Proof.
  intros Hback H1 H2 H3 H4 H5 Hin Hmiss m H.
  unfold main_sample in H.
  destruct (Dates.validate_dates to_datetime start end_) as [dates | |] eqn:Ev;
    simpl in H; try discriminate.
  rewrite (validate_dates_returned _ _ _ _ Ev) in *. simpl in H.
  destruct (existsb one_row [ffr; gs10; cpi; vix]) eqn:Hrows.
  { rewrite (DataMergeFacts.build_dataframe_one_row pad yahoo_close_month_end
               fred_month_end start end_ ndx_me ffr gs10 cpi vix
               H1 H2 H3 H4 H5 Hrows) in H.
    discriminate. }
  rewrite (DataMergeFacts.build_dataframe_returns pad yahoo_close_month_end
             fred_month_end start end_ ndx_me ffr gs10 cpi vix
             H1 H2 H3 H4 H5 Hrows) in H.
  simpl in H.
  set (idx := union_index [on_values (pct_change pad) ndx_me; ffr; gs10; cpi; vix]) in *.
  set (df0 := {| index := idx; columns := _ |}) in *.
  destruct (adf_each adfuller df0 (column_names df0)) as [u | |] eqn:Ea;
    simpl in H; try discriminate.
  clear H.
  assert (Hcol : exists label col,
             In label (column_names df0) /\
             column_series df0 label
             = Return {| name := label; rows := combine idx col |} /\
             length col = length idx /\ Forall (fun v => v = nan) col).
  { unfold DataMerge.all_missing in Hmiss.
    apply PandasFacts.all_nan_forallb in Hmiss.
    simpl in Hin.
    destruct Hin as [<- | [<- | [<- | [<- | [<- | []]]]]].
    - exists "ndx_ret", (reindex idx (on_values (pct_change pad) ndx_me)).
      split; [simpl; auto |]. split; [reflexivity |].
      split; [apply length_map |].
      apply PandasFacts.reindex_all_missing, PandasFacts.on_values_all_missing,
        PandasFacts.pct_change_all_missing, Hmiss.
    - exists "ffr", (reindex idx ffr).
      split; [simpl; auto |]. split; [reflexivity |].
      split; [apply length_map | apply PandasFacts.reindex_all_missing, Hmiss].
    - exists "gs10", (reindex idx gs10).
      split; [simpl; auto |]. split; [reflexivity |].
      split; [apply length_map | apply PandasFacts.reindex_all_missing, Hmiss].
    - exists "cpi", (reindex idx cpi).
      split; [simpl; auto 6 |]. split; [reflexivity |].
      split; [apply length_map | apply PandasFacts.reindex_all_missing, Hmiss].
    - exists "vix", (reindex idx vix).
      split; [simpl; auto 7 |]. split; [reflexivity |].
      split; [apply length_map | apply PandasFacts.reindex_all_missing, Hmiss]. }
  destruct Hcol as (label & col & Hlabel & Hseries & Hlen & Hnan).
  destruct (adf_each_returned adfuller df0 (column_names df0)
              (ex_intro _ u Ea) label Hlabel) as (s' & r & Hs' & Hr).
  rewrite Hseries in Hs'. injection Hs' as <-.
  assert (Hall : DataMerge.all_missing {| name := label; rows := combine idx col |} = true).
  { unfold DataMerge.all_missing, values. simpl.
    rewrite FetchFacts.combine_snd by (symmetry; exact Hlen).
    apply PandasFacts.all_nan_forallb, Hnan. }
  unfold Stationarity.adf_test in Hr.
  rewrite (StationarityMore.dropna_all_missing _ Hall) in Hr.
  destruct (Hback {| name := label; rows := [] |} eq_refl) as [e He].
  simpl in Hr. rewrite He in Hr. discriminate.
Qed.

End MainSample.

Lemma main_sample_result_witness :
  Dates.validate_dates Dates.to_datetime_ref "2020-01-01" "2024-04-30"
  = Return ("2020-01-01", "2024-04-30") /\
  exists df0,
    DataMerge.build_dataframe true DataMerge.sample_yahoo DataMerge.sample_fred
      "2020-01-01" "2024-04-30" = Return df0 /\
    column_names
      {| index := [2; 3];
         columns := [("ndx_ret", [0.5; -0.5]%float); ("d_ffr", [1; 2]%float);
                     ("d_gs10", [1; 2]%float); ("inflation", [100; 100]%float);
                     ("d_vix", [1; 2]%float)] |} = regression_columns /\
    well_formed
      {| index := [2; 3];
         columns := [("ndx_ret", [0.5; -0.5]%float); ("d_ffr", [1; 2]%float);
                     ("d_gs10", [1; 2]%float); ("inflation", [100; 100]%float);
                     ("d_vix", [1; 2]%float)] |} /\
    (forall c v,
       In c (columns
               {| index := [2; 3];
                  columns := [("ndx_ret", [0.5; -0.5]%float); ("d_ffr", [1; 2]%float);
                              ("d_gs10", [1; 2]%float);
                              ("inflation", [100; 100]%float);
                              ("d_vix", [1; 2]%float)] |}) ->
       In v c.2 -> F64.isna v = false) /\
    sublist
      (index
         {| index := [2; 3];
            columns := [("ndx_ret", [0.5; -0.5]%float); ("d_ffr", [1; 2]%float);
                        ("d_gs10", [1; 2]%float); ("inflation", [100; 100]%float);
                        ("d_vix", [1; 2]%float)] |})
      (tail (index df0)).
Proof.
  apply (main_sample_result true Dates.to_datetime_ref DataMerge.sample_yahoo
           DataMerge.sample_fred adfuller_lenient "2020-01-01" "2024-04-30").
  vm_compute. reflexivity.
Defined.

Lemma main_sample_needs_observations_witness :
  DataMerge.all_missing {| name := "VIXCLS"; rows := [] |} = true /\
  forall m,
    main_sample true Dates.to_datetime_ref DataMerge.sample_yahoo
      DataMerge.sample_fred_no_vix adfuller_lenient "2020-01-01" "2024-04-30"
    <> Return m.
Proof.
  split; [reflexivity |].
  apply (main_sample_needs_observations true Dates.to_datetime_ref
           DataMerge.sample_yahoo DataMerge.sample_fred_no_vix adfuller_lenient
           "2020-01-01" "2024-04-30"
           {| name := "Close"; rows := [(1, 100%float); (2, 150%float); (3, 75%float)] |}
           {| name := "FEDFUNDS"; rows := [(1, 1%float); (2, 2%float); (3, 4%float)] |}
           {| name := "GS10"; rows := [(1, 1%float); (2, 2%float); (3, 4%float)] |}
           {| name := "CPIAUCSL"; rows := [(1, 1%float); (2, 2%float); (3, 4%float)] |}
           {| name := "VIXCLS"; rows := [] |}
           {| name := "VIXCLS"; rows := [] |}).
  - intros x Hx. unfold adfuller_lenient. rewrite Hx. simpl. eexists. reflexivity.
  - reflexivity.
  - reflexivity.
  - reflexivity.
  - reflexivity.
  - reflexivity.
  - simpl. auto 7.
  - reflexivity.
Defined.

End SampleFacts.
